(** * Time-tracker template builder: extraction, aggregation, rendering

    A shallow embedding of the plugin class [MyPlugin] of the Obsidian
    time-tracker template builder, and the properties its specification
    states about it.

    Two revisions of the plugin are embedded:
    - the current one (regexp, preset tasks and a minutes budget), at the top
      level of this file;
    - the earlier one (regexp only, no fallback for an unparsable minutes
      token), in [Module Earlier].

    Representation of JavaScript values.
    - A string is a [string]: a sequence of code units, restricted to the
      code units below 256.  Of the four line terminators of JavaScript
      these strings hold the line feed and the carriage return, and not
      U+2028 and U+2029.
    - A number is a [number]: a double whose value is an integer, [Num z],
      or [NaN], or one of the two infinities.  The numbers of this program
      come from [parseInt], from [+] and [-] on such numbers and from the
      literal [0], so they have no fraction.  [parseInt] and [+] round to
      the nearest double, to the even one of two that are equally near, and
      give an infinity beyond the largest double; below 2^53 in magnitude
      the arithmetic of doubles is the arithmetic of integers.  Negative
      zero is identified with zero (the program only prints, compares and
      adds numbers; both zeros print as [0] and are equal).
    - [undefined] where a string is expected is [None] in an [option string].
    - A regular expression is the syntax tree of its pattern, for the
      patterns made of literal characters, [.], the greedy quantifiers
      [*], [+], [?] on one character, and [|].  [RegExp.create] gives [None]
      on every other pattern; these patterns have no capture groups, so
      the array of a match holds the matched text alone. *)

From Stdlib Require Import String Ascii List ZArith Lia Bool Arith.
From Stdlib Require DecimalString DecimalPos.
From Stdlib Require Import Sorting.Sorted.
Import ListNotations.

Local Open Scope list_scope.
Local Open Scope string_scope.

Set Implicit Arguments.

(* ================================================================= *)
(** ** JavaScript strings and arrays *)

Module JS.

(** Code units used by the source. *)
Definition LF : ascii := ascii_of_nat 10.
Definition CR : ascii := ascii_of_nat 13.
Definition newline : string := String LF "".

(** [S.startsWith(sep)] at the current position. *)
Definition startsWith (sep s : string) : bool := String.prefix sep s.

(** [String.prototype.split] with a string separator.  The scan goes left to
    right; at a position where the separator occurs the current piece ends
    and the scan resumes behind the separator ([skip] counts the code units
    of that occurrence still to pass).  The pieces are built from the
    front, so the result is never empty. *)
Fixpoint split_from (sep : string) (skip : nat) (s : string) : list string :=
  match s with
  | EmptyString => [""]
  | String c s' =>
      match skip with
      | S k => split_from sep k s'
      | O =>
          if startsWith sep s
          then "" :: split_from sep (String.length sep - 1) s'
          else match split_from sep 0 s' with
               | p :: ps => String c p :: ps
               | [] => [String c ""]
               end
      end
  end.

(** With the empty separator the string is cut into its code units. *)
Fixpoint code_units (s : string) : list string :=
  match s with
  | EmptyString => []
  | String c s' => String c "" :: code_units s'
  end.

Definition split (sep s : string) : list string :=
  match sep with
  | EmptyString => code_units s
  | _ => split_from sep 0 s
  end.

(** [array[i]]: [undefined] out of range. *)
Definition get (A : Type) (array : list A) (i : nat) : option A :=
  nth_error array i.

(** [array.slice(start, end)] for non-negative indices. *)
Definition slice (A : Type) (array : list A) (start stop : nat) : list A :=
  firstn (stop - start) (skipn start array).

(** [array.join(sep)] on an array of strings. *)
Definition join (sep : string) (array : list string) : string :=
  String.concat sep array.

(** [s.substring(start, end)]: both arguments are clamped to
    [0 .. s.length] and swapped when the first is the larger. *)
Definition clamp (len : nat) (i : Z) : nat :=
  Z.to_nat (Z.min (Z.max i 0) (Z.of_nat len)).

Definition substring (s : string) (start stop : Z) : string :=
  let len := String.length s in
  let a := clamp len start in
  let b := clamp len stop in
  let from := Nat.min a b in
  let to := Nat.max a b in
  String.substring from (to - from) s.

(** [[...arrays].flat()]: one level of nesting removed. *)
Definition flat (A : Type) (arrays : list (list A)) : list A :=
  List.concat arrays.

End JS.

(* ================================================================= *)
(** ** Numbers *)

Inductive number : Type :=
| Num (z : Z)
| NaN
| Infinity (negative : bool).

Definition isNaN (n : number) : bool :=
  match n with
  | NaN => true
  | _ => false
  end.

(** The number nearest to an integer, the even one of two that are equally
    near: integers below 2^53 in magnitude are numbers themselves, larger
    ones keep 53 significant bits, and from 2^1024 - 2^970 on the result is
    infinite. *)
Definition number_of_integer (z : Z) : number :=
  let a := Z.abs z in
  if (a <? 2 ^ 53)%Z then Num z
  else
    let e := (Z.log2 a - 52)%Z in
    let q := Z.shiftr a e in
    let r := (a - Z.shiftl q e)%Z in
    let half := Z.shiftl 1 (e - 1) in
    let q' :=
      if ((half <? r)%Z || ((r =? half)%Z && Z.odd q))%bool
      then (q + 1)%Z else q in
    let m := Z.shiftl q' e in
    if (2 ^ 1024 <=? m)%Z then Infinity (z <? 0)%Z
    else Num (Z.sgn z * m).

(** [- b] *)
Definition number_neg (b : number) : number :=
  match b with
  | Num y => Num (- y)
  | NaN => NaN
  | Infinity s => Infinity (negb s)
  end.

(** [a + b] and [a - b] on numbers. *)
Definition number_add (a b : number) : number :=
  match a, b with
  | NaN, _ => NaN
  | _, NaN => NaN
  | Num x, Num y => number_of_integer (x + y)
  | Infinity s, Infinity t => if Bool.eqb s t then Infinity s else NaN
  | Infinity s, Num _ => Infinity s
  | Num _, Infinity t => Infinity t
  end.

Definition number_sub (a b : number) : number :=
  number_add a (number_neg b).

(** [a === b] on numbers: [NaN] is not equal to itself. *)
Definition number_strict_eq (a b : number) : bool :=
  match a, b with
  | Num x, Num y => Z.eqb x y
  | Infinity s, Infinity t => Bool.eqb s t
  | _, _ => false
  end.

(* ----------------------------------------------------------------- *)
(** *** String(n) *)

Module ToString.

(** The decimal digits of an integer. *)
Definition integerString (z : Z) : string :=
  DecimalString.NilZero.string_of_int (Z.to_int z).

(** [w] is read as the number [v]. *)
Definition represents (v w : Z) : bool :=
  match number_of_integer w with
  | Num x => Z.eqb x v
  | _ => false
  end.

(** The integer with [k] significant digits, of the [n] digits of [v], that
    is read as [v], if there is one: the nearest one, and the one with the
    even last digit of two that are equally near. *)
Definition shortestAt (v n k : Z) : option Z :=
  let p := (10 ^ (n - k))%Z in
  let lo := (v / p * p)%Z in
  let hi := (lo + p)%Z in
  match represents v lo, represents v hi with
  | true, true =>
      Some (if (v - lo <? hi - v)%Z then lo
            else if (hi - v <? v - lo)%Z then hi
            else if Z.even (lo / p) then lo else hi)
  | true, false => Some lo
  | false, true => Some hi
  | false, false => None
  end.

Fixpoint shortestFrom (v n : Z) (ks : list Z) : Z :=
  match ks with
  | [] => v
  | k :: ks' =>
      match shortestAt v n k with
      | Some w => w
      | None => shortestFrom v n ks'
      end
  end.

(** The integer of fewest significant digits that is read as [v]. *)
Definition shortest (v : Z) : Z :=
  let n := Z.of_nat (String.length (integerString v)) in
  shortestFrom v n
               (filter (fun k => (k <=? n)%Z) (map Z.of_nat (seq 1 17))).

Fixpoint dropTrailingZeros (s : string) : string :=
  match s with
  | EmptyString => EmptyString
  | String c s' =>
      match dropTrailingZeros s' with
      | EmptyString => if Ascii.eqb c "0" then EmptyString else String c ""
      | t => String c t
      end
  end.

(** The exponent form: the significant digits, a point behind the first
    of them, and the power of ten. *)
Definition exponentString (w : Z) : string :=
  let ds := integerString w in
  let n := Z.of_nat (String.length ds) in
  match dropTrailingZeros ds with
  | EmptyString => ds
  | String d EmptyString => String d ("e+" ++ integerString (n - 1))
  | String d rest => String d ("." ++ rest ++ "e+" ++ integerString (n - 1))
  end.

(** The text of a magnitude from 2^53 on: plain digits below 10^21, the
    exponent form from there on. *)
Definition largeString (a : Z) : string :=
  let w := shortest a in
  if (w <? 10 ^ 21)%Z then integerString w else exponentString w.

End ToString.

(** [String(n)], as a template literal applies it. *)
Definition number_toString (n : number) : string :=
  match n with
  | Num z =>
      if (Z.abs z <? 2 ^ 53)%Z
      then DecimalString.NilZero.string_of_int (Z.to_int z)
      else (if (z <? 0)%Z then "-" else "") ++ ToString.largeString (Z.abs z)
  | NaN => "NaN"
  | Infinity false => "Infinity"
  | Infinity true => "-Infinity"
  end.

(** [String(v)] for a value that is a string or [undefined]. *)
Definition value_toString (v : option string) : string :=
  match v with
  | Some s => s
  | None => "undefined"
  end.

(* ----------------------------------------------------------------- *)
(** *** parseInt *)

Module ParseInt.

(** White space and line terminators that [parseInt] skips. *)
Definition isWhiteSpace (c : ascii) : bool :=
  let n := nat_of_ascii c in
  ((9 <=? n)%nat && (n <=? 13)%nat) || (n =? 32)%nat || (n =? 160)%nat.

Fixpoint trimStart (s : string) : string :=
  match s with
  | String c s' => if isWhiteSpace c then trimStart s' else s
  | EmptyString => s
  end.

(** The value of a digit in the given radix, if it is one. *)
Definition digitValue (radix : Z) (c : ascii) : option Z :=
  let n := Z.of_nat (nat_of_ascii c) in
  let v :=
    if ((48 <=? n)%Z && (n <=? 57)%Z)%bool then Some (n - 48)%Z
    else if ((97 <=? n)%Z && (n <=? 122)%Z)%bool then Some (n - 87)%Z
    else if ((65 <=? n)%Z && (n <=? 90)%Z)%bool then Some (n - 55)%Z
    else None in
  match v with
  | Some d => if (d <? radix)%Z then Some d else None
  | None => None
  end.

(** The longest prefix of digits, read most significant digit first;
    [None] when there is no digit at all. *)
Fixpoint digits (radix : Z) (acc : option Z) (s : string) : option Z :=
  match s with
  | String c s' =>
      match digitValue radix c with
      | Some d =>
          digits radix
                 (Some (match acc with Some a => a * radix + d | None => d end)%Z)
                 s'
      | None => acc
      end
  | EmptyString => acc
  end.

(** The sign, and the string behind it. *)
Definition sign (s : string) : Z * string :=
  match s with
  | String "-" s' => ((-1)%Z, s')
  | String "+" s' => (1%Z, s')
  | _ => (1%Z, s)
  end.

(** The radix, and the string behind a hexadecimal prefix. *)
Definition radixPrefix (s : string) : Z * string :=
  match s with
  | String "0" (String "x" s') => (16%Z, s')
  | String "0" (String "X" s') => (16%Z, s')
  | _ => (10%Z, s)
  end.

(** [parseInt(string)] with no radix argument: the number nearest to the
    integer the digits denote. *)
Definition parseIntString (input : string) : number :=
  let (sg, s1) := sign (trimStart input) in
  let (radix, s2) := radixPrefix s1 in
  match digits radix None s2 with
  | Some m => number_of_integer (sg * m)
  | None => NaN
  end.

End ParseInt.

(** [parseInt(v)]: the argument is converted to a string first, so
    [undefined] is read as the text [undefined]. *)
Definition parseInt (v : option string) : number :=
  ParseInt.parseIntString (value_toString v).

(* ================================================================= *)
(** ** Regular expressions *)

Module RegExp.

(** The syntax tree of a pattern. *)
Inductive Atom : Type :=
| PatternCharacter (c : ascii)
| AnyCharacter.

Inductive Quantifier : Type :=
| Once
| ZeroOrMore
| OneOrMore
| ZeroOrOne.

Record Term : Type := mkTerm { atom : Atom; quantifier : Quantifier }.

Definition Alternative : Type := list Term.

(** The alternatives of a pattern, in the order they are tried. *)
Definition Disjunction : Type := list Alternative.

(* ----------------------------------------------------------------- *)
(** *** new RegExp(pattern, "g") *)

Definition isSyntaxCharacter (c : ascii) : bool :=
  existsb (Ascii.eqb c)
          (list_ascii_of_string "^$\.*+?()[]{}|").

Definition quantifierOf (c : ascii) : option Quantifier :=
  if Ascii.eqb c "*" then Some ZeroOrMore
  else if Ascii.eqb c "+" then Some OneOrMore
  else if Ascii.eqb c "?" then Some ZeroOrOne
  else None.

(** The parser reads the pattern left to right.  [cur] holds the terms of
    the alternative being read, last term first; [quantifiable] tells whether
    the last term may still take a quantifier; [done] holds the alternatives
    already closed by a [|], last one first. *)
Fixpoint parse (p : string) (cur : list Term) (quantifiable : bool)
         (done : list Alternative) : option Disjunction :=
  match p with
  | EmptyString => Some (rev (rev cur :: done))
  | String c p' =>
      if Ascii.eqb c "|" then parse p' [] false (rev cur :: done)
      else if Ascii.eqb c "." then
        parse p' (mkTerm AnyCharacter Once :: cur) true done
      else
        match quantifierOf c with
        | Some q =>
            match cur, quantifiable with
            | t :: cur', true => parse p' (mkTerm (atom t) q :: cur') false done
            | _, _ => None
            end
        | None =>
            if Ascii.eqb c "\" then
              match p' with
              | String e p'' =>
                  if isSyntaxCharacter e
                  then parse p'' (mkTerm (PatternCharacter e) Once :: cur) true done
                  else None
              | EmptyString => None
              end
            else if isSyntaxCharacter c then None
            else parse p' (mkTerm (PatternCharacter c) Once :: cur) true done
        end
  end.

Definition create (pattern : string) : option Disjunction :=
  parse pattern [] false [].

(* ----------------------------------------------------------------- *)
(** *** Matching *)

(** The line terminators, which [.] refuses: the line feed and the carriage
    return among the code units below 256 (U+2028 and U+2029 are the other
    two). *)
Definition isLineTerminator (c : ascii) : bool :=
  Ascii.eqb c JS.LF || Ascii.eqb c JS.CR.

Definition atom_matches (a : Atom) (c : ascii) : bool :=
  match a with
  | PatternCharacter x => Ascii.eqb x c
  | AnyCharacter => negb (isLineTerminator c)
  end.

(** A matcher takes the rest of the input and a continuation that matches
    what follows in the pattern; it answers with the input left behind the
    whole match, or [None] when every choice failed. *)
Definition Continuation : Type := string -> option string.

Definition match_atom (a : Atom) (s : string) (k : Continuation)
  : option string :=
  match s with
  | String c s' => if atom_matches a c then k s' else None
  | EmptyString => None
  end.

(** Greedy repetition: one more character first, the continuation next. *)
Fixpoint repeat_greedy (a : Atom) (s : string) (k : Continuation)
  : option string :=
  match s with
  | String c s' =>
      if atom_matches a c
      then match repeat_greedy a s' k with
           | Some r => Some r
           | None => k s
           end
      else k s
  | EmptyString => k s
  end.

Definition match_term (t : Term) (s : string) (k : Continuation)
  : option string :=
  match quantifier t with
  | Once => match_atom (atom t) s k
  | ZeroOrMore => repeat_greedy (atom t) s k
  | OneOrMore => match_atom (atom t) s (fun s' => repeat_greedy (atom t) s' k)
  | ZeroOrOne =>
      match match_atom (atom t) s k with
      | Some r => Some r
      | None => k s
      end
  end.

Fixpoint match_alternative (ts : Alternative) (s : string) (k : Continuation)
  : option string :=
  match ts with
  | [] => k s
  | t :: ts' => match_term t s (fun s' => match_alternative ts' s' k)
  end.

Fixpoint match_disjunction (d : Disjunction) (s : string) (k : Continuation)
  : option string :=
  match d with
  | [] => None
  | a :: d' =>
      match match_alternative a s k with
      | Some r => Some r
      | None => match_disjunction d' s k
      end
  end.

(** A match that starts at the front of [s]: what is left behind it. *)
Definition match_at (re : Disjunction) (s : string) : option string :=
  match_disjunction re s (fun rest => Some rest).

(* ----------------------------------------------------------------- *)
(** *** String.prototype.matchAll with a global regular expression *)

Record MatchResult : Type := mkMatch { index : nat; matched : string }.

(** The array of a match: the matched text, then the captures, of which
    these patterns have none. *)
Definition array_of (m : MatchResult) : list string := [matched m].

(** The search goes through the start positions left to right.  Behind a
    match it resumes at the end of the match, one position further when the
    match was empty ([skip] counts the code units of the match still to
    pass). *)
Fixpoint scan (re : Disjunction) (skip idx : nat) (s : string) {struct s}
  : list MatchResult :=
  match skip with
  | S k =>
      match s with
      | String _ s' => scan re k (S idx) s'
      | EmptyString => []
      end
  | O =>
      match match_at re s with
      | Some rest =>
          let n := String.length s - String.length rest in
          mkMatch idx (String.substring 0 n s)
          :: match s with
             | String _ s' => scan re (n - 1) (S idx) s'
             | EmptyString => []
             end
      | None =>
          match s with
          | String _ s' => scan re 0 (S idx) s'
          | EmptyString => []
          end
      end
  end.

Definition matchAll (re : Disjunction) (s : string) : list MatchResult :=
  scan re 0 0 s.

End RegExp.

(* ================================================================= *)
(** ** The plugin *)

Record MyPluginSettings : Type := {
  regexp : string;
  presetTasks : string;
  maxTimeInMinutes : number
}.

Definition DEFAULT_SETTINGS : MyPluginSettings := {|
  regexp := "`tt .*`";
  presetTasks := "";
  maxTimeInMinutes := Num 480
|}.

(** [id] is the second token of a match, [undefined] when there is none. *)
Record TimeTrackerTemplateInfo : Type := {
  id : option string;
  time : number;
  text : string
}.

Module Preset.
Record PresetTask : Type := { id : string; name : string }.
End Preset.

Record MyPlugin : Type := { settings : MyPluginSettings }.

(** The status bar item: the text it shows. *)
Record StatusBarItem : Type := { shown : string }.

Definition setText (el : StatusBarItem) (t : string) : StatusBarItem :=
  {| shown := t |}.

(** [tasks.filter(item => !!item)]: the entries that are not [undefined]. *)
Fixpoint filter_defined (A : Type) (l : list (option A)) : list A :=
  match l with
  | [] => []
  | Some a :: l' => a :: filter_defined l'
  | None :: l' => filter_defined l'
  end.

(** The function that [getPresetTasks] maps over the lines. *)
Definition presetTaskOfLine (v : string) : option Preset.PresetTask :=
  let array := JS.split "___" v in
  match array with
  | [a0; a1] => Some {| Preset.id := a0; Preset.name := a1 |}
  | _ => None
  end.

Definition getPresetTasks (this : MyPlugin) : list Preset.PresetTask :=
  let tasks :=
    map presetTaskOfLine (JS.split JS.newline (presetTasks (settings this))) in
  filter_defined tasks.

(** The function that [getTimeTrackerTemplateInfo] maps over the matches. *)
Definition infoOfMatch (v : string) : TimeTrackerTemplateInfo :=
  let array := JS.split " " v in
  let jiraId := JS.get array 1 in
  let minutes := JS.get array 2 in
  let textTemp := JS.join " " (JS.slice array 3 (List.length array)) in
  let textTemp :=
    JS.substring textTemp 0 (Z.of_nat (String.length textTemp) - 1) in
  let text := textTemp in
  let minutesAsInt := parseInt minutes in
  let minutesAsInt := if isNaN minutesAsInt then Num 0 else minutesAsInt in
  {| id := jiraId; time := minutesAsInt; text := text |}.

(** The strings the matches of the pattern contribute, in order. *)
Definition collection (regex : RegExp.Disjunction) (inputText : string)
  : list string :=
  JS.flat (map RegExp.array_of (RegExp.matchAll regex inputText)).

(** [None]: the pattern is outside the patterns [RegExp.create] reads. *)
Definition getTimeTrackerTemplateInfo (this : MyPlugin) (inputText : string)
  : option (list TimeTrackerTemplateInfo) :=
  match RegExp.create (regexp (settings this)) with
  | Some regex => Some (map infoOfMatch (collection regex inputText))
  | None => None
  end.

Definition templateLine (value : TimeTrackerTemplateInfo) : string :=
  value_toString (id value) ++ "__" ++ number_toString (time value)
  ++ "_" ++ text value.

Definition getTimeTrackerTemplate (info : list TimeTrackerTemplateInfo)
  : string :=
  JS.join JS.newline (map templateLine info).

(** [infos.reduce((accumulator, object) => accumulator + object.time, 0)] *)
Definition sumOfTimes (infos : list TimeTrackerTemplateInfo) : number :=
  fold_left (fun accumulator object => number_add accumulator (time object))
            infos (Num 0).

Definition calculateMinutes (plugin : MyPlugin) (inputText : string)
  : option number :=
  match getTimeTrackerTemplateInfo plugin inputText with
  | Some infos => Some (sumOfTimes infos)
  | None => None
  end.

Definition statusText (sum max : number) : string :=
  let dif := number_sub max sum in
  if number_strict_eq sum max
  then "Minutes on file: '" ++ number_toString sum ++ "'"
  else "Minutes on file: '" ++ number_toString sum ++ "'. M: '"
       ++ number_toString max ++ "'. D: '" ++ number_toString dif ++ "'".

Definition setMinutesTuStatusBar (plugin : MyPlugin)
           (statusBarItemEl : StatusBarItem) (inputText : string)
  : option StatusBarItem :=
  match calculateMinutes plugin inputText with
  | Some sum =>
      let max := maxTimeInMinutes (settings plugin) in
      Some (setText statusBarItemEl (statusText sum max))
  | None => None
  end.

(* ----------------------------------------------------------------- *)
(** *** The handlers registered by onload *)

(** A string is truthy unless it is empty. *)
Definition truthy (s : string) : bool := negb (String.eqb s "").

(** The file information of the workspace: [editor] is the text its editor
    holds, [None] when it has no editor. *)
Record MarkdownFileInfo : Type := { editor : option string }.

(** [activeEditor] is [None] when no editor is active. *)
Record Workspace : Type := { activeEditor : option MarkdownFileInfo }.

(** [workspace.activeEditor?.editor?.getValue()] *)
Definition activeValue (workspace : Workspace) : option string :=
  match activeEditor workspace with
  | Some info => editor info
  | None => None
  end.

(** What an editor-change event passes on: a Markdown view with the text
    of its editor, or some other file information. *)
Inductive ChangeInfo : Type :=
| IsMarkdownView (value : string)
| IsOtherInfo (info : MarkdownFileInfo).

Definition onFileOpenEvent (plugin : MyPlugin) (workspace : Workspace)
           (statusBarItemEl : StatusBarItem) : option StatusBarItem :=
  match activeEditor workspace with
  | Some _ =>
      match activeValue workspace with
      | Some text =>
          if truthy text
          then setMinutesTuStatusBar plugin statusBarItemEl text
          else Some statusBarItemEl
      | None => Some statusBarItemEl
      end
  | None => Some statusBarItemEl
  end.

Definition onEditorChangeEvent (plugin : MyPlugin) (info : ChangeInfo)
           (statusBarItemEl : StatusBarItem) : option StatusBarItem :=
  match info with
  | IsMarkdownView text => setMinutesTuStatusBar plugin statusBarItemEl text
  | IsOtherInfo _ => Some statusBarItemEl
  end.

(** The modal of the template: the text it shows and copies. *)
Record TemplateModal : Type := { modalText : string }.

(** The click on the status bar item.  The inner [None]: no modal is
    opened. *)
Definition onClickEvent (plugin : MyPlugin) (workspace : Workspace)
  : option (option TemplateModal) :=
  match activeValue workspace with
  | Some value =>
      if truthy value
      then match getTimeTrackerTemplateInfo plugin value with
           | Some info =>
               Some (Some {| modalText := getTimeTrackerTemplate info |})
           | None => None
           end
      else Some None
  | None => Some None
  end.

(* ----------------------------------------------------------------- *)
(** *** The settings tab *)

(** The text the field of the maximum time is filled with. *)
Definition maxTimeFieldValue (s : MyPluginSettings) : string :=
  number_toString (maxTimeInMinutes s).

(** The change handlers of the three fields. *)
Definition onRegexpChange (value : string) (s : MyPluginSettings)
  : MyPluginSettings :=
  {| regexp := value;
     presetTasks := presetTasks s;
     maxTimeInMinutes := maxTimeInMinutes s |}.

Definition onPresetTasksChange (value : string) (s : MyPluginSettings)
  : MyPluginSettings :=
  {| regexp := regexp s;
     presetTasks := value;
     maxTimeInMinutes := maxTimeInMinutes s |}.

Definition onMaxTimeChange (value : string) (s : MyPluginSettings)
  : MyPluginSettings :=
  {| regexp := regexp s;
     presetTasks := presetTasks s;
     maxTimeInMinutes := parseInt (Some value) |}.

(* ----------------------------------------------------------------- *)
(** *** The earlier revision *)

Module Earlier.

Record MyPluginSettings : Type := { regexp : string }.

Definition DEFAULT_SETTINGS : MyPluginSettings := {| regexp := "`tt .*`" |}.

Record MyPlugin : Type := { settings : MyPluginSettings }.

(** No fallback: the minutes are whatever [parseInt] answers. *)
Definition infoOfMatch (v : string) : TimeTrackerTemplateInfo :=
  let array := JS.split " " v in
  let jiraId := JS.get array 1 in
  let minutes := JS.get array 2 in
  let textTemp := JS.join " " (JS.slice array 3 (List.length array)) in
  let textTemp :=
    JS.substring textTemp 0 (Z.of_nat (String.length textTemp) - 1) in
  let text := textTemp in
  {| id := jiraId; time := parseInt minutes; text := text |}.

Definition getTimeTrackerTemplateInfo (this : MyPlugin) (inputText : string)
  : option (list TimeTrackerTemplateInfo) :=
  match RegExp.create (regexp (settings this)) with
  | Some regex => Some (map infoOfMatch (collection regex inputText))
  | None => None
  end.

Definition calculateMinutes (plugin : MyPlugin) (inputText : string)
  : option number :=
  match getTimeTrackerTemplateInfo plugin inputText with
  | Some infos => Some (sumOfTimes infos)
  | None => None
  end.

Definition setMinutesTuStatusBar (plugin : MyPlugin)
           (statusBarItemEl : StatusBarItem) (inputText : string)
  : option StatusBarItem :=
  match calculateMinutes plugin inputText with
  | Some sum =>
      Some (setText statusBarItemEl
                    ("Minutes on file: '" ++ number_toString sum ++ "'"))
  | None => None
  end.

End Earlier.

Definition defaultPlugin : MyPlugin := {| settings := DEFAULT_SETTINGS |}.

(* ================================================================= *)
(** ** The vocabulary of the properties *)

(** [drop n s]: [s] without its first [n] code units. *)
Fixpoint drop (n : nat) (s : string) : string :=
  match n, s with
  | O, _ => s
  | S k, String _ s' => drop k s'
  | S _, EmptyString => EmptyString
  end.

(** [occurs c s]: the code unit [c] occurs in [s]. *)
Fixpoint occurs (c : ascii) (s : string) : bool :=
  match s with
  | EmptyString => false
  | String x s' => Ascii.eqb x c || occurs c s'
  end.

(** A continuation that only ever leaves a suffix of what it was given. *)
Definition leaves_suffix (k : RegExp.Continuation) : Prop :=
  forall s r, k s = Some r -> exists p, s = p ++ r.

(** [a] lies before [b]: it starts earlier and ends where [b] starts, or
    earlier. *)
Definition precedes (a b : RegExp.MatchResult) : Prop :=
  RegExp.index a < RegExp.index b
  /\ RegExp.index a + String.length (RegExp.matched a) <= RegExp.index b.

(** The pattern of the default settings, as [RegExp.create] reads it. *)
Definition defaultRegExp : RegExp.Disjunction :=
  Eval cbv in
    match RegExp.create (regexp DEFAULT_SETTINGS) with
    | Some regex => regex
    | None => []
    end.

(** The integer a record's minutes stand for. *)
Definition minutesOf (r : TimeTrackerTemplateInfo) : Z :=
  match time r with
  | Num z => z
  | _ => 0%Z
  end.

(** The arithmetic sum of a sequence of integers. *)
Definition arithmeticSum (zs : list Z) : Z := fold_right Z.add 0%Z zs.

(** The decimal text of an integer. *)
Definition decimal (z : Z) : string := number_toString (Num z).

(** The words of the specification for the preset tasks: a line is kept
    when it has exactly two fields, and these are the id and the name. *)
Definition hasTwoFields (line : string) : bool :=
  (List.length (JS.split "___" line) =? 2)%nat.

Definition taskOfFields (line : string) : Preset.PresetTask :=
  {| Preset.id := nth 0 (JS.split "___" line) "";
     Preset.name := nth 1 (JS.split "___" line) "" |}.

(** [contains sep s]: the string [sep] occurs in [s]. *)
Definition contains (sep s : string) : Prop :=
  exists p q, s = p ++ sep ++ q.

(** No atom of the pattern matches the code unit [c]. *)
Definition never_matches (c : ascii) (re : RegExp.Disjunction) : bool :=
  forallb (forallb (fun t => negb (RegExp.atom_matches (RegExp.atom t) c))) re.

(** The front of a string up to its first line terminator. *)
Fixpoint firstLine (s : string) : string :=
  match s with
  | EmptyString => EmptyString
  | String c s' =>
      if RegExp.isLineTerminator c then EmptyString
      else String c (firstLine s')
  end.

(** A match moved to the right by [n] positions. *)
Definition shift (n : nat) (m : RegExp.MatchResult) : RegExp.MatchResult :=
  RegExp.mkMatch (RegExp.index m + n) (RegExp.matched m).

(** The value of a decimal numeral read behind the digits of [acc]. *)
Fixpoint uint_value (d : Decimal.uint) (acc : Z) : Z :=
  match d with
  | Decimal.Nil => acc
  | Decimal.D0 d' => uint_value d' (acc * 10 + 0)
  | Decimal.D1 d' => uint_value d' (acc * 10 + 1)
  | Decimal.D2 d' => uint_value d' (acc * 10 + 2)
  | Decimal.D3 d' => uint_value d' (acc * 10 + 3)
  | Decimal.D4 d' => uint_value d' (acc * 10 + 4)
  | Decimal.D5 d' => uint_value d' (acc * 10 + 5)
  | Decimal.D6 d' => uint_value d' (acc * 10 + 6)
  | Decimal.D7 d' => uint_value d' (acc * 10 + 7)
  | Decimal.D8 d' => uint_value d' (acc * 10 + 8)
  | Decimal.D9 d' => uint_value d' (acc * 10 + 9)
  end%Z.


(** The integers that a JavaScript number holds exactly. *)
Definition safeInteger (n : number) : Prop :=
  match n with
  | Num z => (- 2 ^ 53 < z < 2 ^ 53)%Z
  | NaN => True
  | Infinity _ => False
  end.

(** The minutes of the records are integers, and their magnitudes add up to
    less than 2^53: adding them up in any order stays among the integers
    that a number holds exactly. *)
Definition withinExactRange (infos : list TimeTrackerTemplateInfo) : Prop :=
  Forall (fun r => time r = Num (minutesOf r)) infos
  /\ (arithmeticSum (map (fun r => Z.abs (minutesOf r)) infos) < 2 ^ 53)%Z.

(** A number below zero. *)
Definition negative (n : number) : bool :=
  match n with
  | Num z => (z <? 0)%Z
  | NaN => false
  | Infinity s => s
  end.

(** Two continuations agree before [tail]: what the first does on an input
    that ends in [tail], the second does on the input without it. *)
Definition agree_before (tail : string) (k1 k2 : RegExp.Continuation) : Prop :=
  forall s, k1 (s ++ tail) = option_map (fun r => r ++ tail) (k2 s).

(** What follows [.*] in the default pattern: the closing backtick. *)
Definition closing : RegExp.Continuation :=
  fun s =>
    RegExp.match_atom (RegExp.PatternCharacter "`") s (fun rest => Some rest).

Arguments closing : simpl never.

(** The line of a preset task in the settings: [Task ID___Title]. *)
Definition presetLine (t : Preset.PresetTask) : string :=
  Preset.id t ++ "___" ++ Preset.name t.

(** The annotation of the default pattern for an id, an integer number of
    minutes and a description. *)
Definition annotation (i : string) (z : Z) (d : string) : string :=
  "`tt " ++ i ++ " " ++ decimal z ++ " " ++ d ++ "`".

(* ================================================================= *)
(** ** Strings: auxiliary facts *)

Arguments JS.startsWith : simpl never.

Section StringFacts.

Lemma append_empty_r (s : string) : s ++ "" = s.
Proof. induction s as [|c s IH]; simpl; [reflexivity | now rewrite IH]. Qed.

Lemma append_assoc (a b c : string) : (a ++ b) ++ c = a ++ (b ++ c).
Proof. induction a as [|x a IH]; simpl; [reflexivity | now rewrite IH]. Qed.

Lemma length_append (a b : string) :
  String.length (a ++ b) = String.length a + String.length b.
Proof. induction a as [|x a IH]; simpl; [reflexivity | now rewrite IH]. Qed.

Lemma substring_0_append (p r : string) :
  String.substring 0 (String.length p) (p ++ r) = p.
Proof.
  induction p as [|c p IH]; simpl.
  - destruct r; reflexivity.
  - now rewrite IH.
Qed.

Lemma substring_skip (pre s : string) (n : nat) :
  String.substring (String.length pre) n (pre ++ s) = String.substring 0 n s.
Proof. induction pre as [|c pre IH]; simpl; [reflexivity | exact IH]. Qed.

Lemma substring_0_0 (s : string) : String.substring 0 0 s = "".
Proof. destruct s; reflexivity. Qed.

(** What [startsWith] decides. *)
Lemma startsWith_true (sep s : string) :
  JS.startsWith sep s = true -> exists t, s = sep ++ t.
Proof.
  unfold JS.startsWith. revert s.
  induction sep as [|a sep IH]; intros s H; simpl in *.
  - now exists s.
  - destruct s as [|b s]; [discriminate|].
    simpl in H. revert H.
    destruct (ascii_dec a b) as [->|]; intros H; [|discriminate H].
    destruct (IH _ H) as [t ->]. now exists t.
Qed.

Lemma startsWith_append (sep t : string) : JS.startsWith sep (sep ++ t) = true.
Proof.
  unfold JS.startsWith.
  induction sep as [|a sep IH]; simpl; [now destruct t|].
  destruct (ascii_dec a a); [exact IH | congruence].
Qed.

End StringFacts.

Lemma drop_append (p t : string) : drop (String.length p) (p ++ t) = t.
Proof. induction p as [|c p IH]; simpl; [reflexivity | exact IH]. Qed.

Section SplitFacts.

Lemma split_from_nonempty (sep : string) (skip : nat) (s : string) :
  JS.split_from sep skip s <> [].
Proof.
  revert skip. induction s as [|c s IH]; intros skip; simpl.
  - discriminate.
  - destruct skip as [|k]; [|apply IH].
    destruct (JS.startsWith sep (String c s)); [discriminate|].
    destruct (JS.split_from sep 0 s); discriminate.
Qed.

Lemma concat_cons_char (sep : string) (c : ascii) (p : string)
      (ps : list string) :
  String.concat sep (String c p :: ps) = String c (String.concat sep (p :: ps)).
Proof. destruct ps; reflexivity. Qed.

Lemma concat_empty_head (sep : string) (l : list string) :
  l <> [] -> String.concat sep ("" :: l) = sep ++ String.concat sep l.
Proof. destruct l; [congruence | reflexivity]. Qed.

(** Joining the pieces with the separator gives the string back: [split]
    cuts the string at occurrences of the separator and nowhere else. *)
Lemma join_split_from (sep : string) :
  sep <> "" ->
  forall (s : string) (skip : nat),
    skip <= String.length s ->
    JS.join sep (JS.split_from sep skip s) = drop skip s.
Proof.
  intros Hsep. unfold JS.join.
  induction s as [|c s IH]; intros skip Hle; simpl in *.
  - destruct skip; [reflexivity | lia].
  - destruct skip as [|k].
    + destruct (JS.startsWith sep (String c s)) eqn:E.
      * apply startsWith_true in E. destruct E as [t E].
        destruct sep as [|a sep]; [congruence|].
        simpl in E. injection E as Ec Es. subst c s.
        rewrite concat_empty_head by apply split_from_nonempty.
        simpl. rewrite Nat.sub_0_r.
        rewrite IH by (rewrite length_append; lia).
        now rewrite drop_append.
      * specialize (IH 0 (Nat.le_0_l _)). simpl in IH.
        destruct (JS.split_from sep 0 s) as [|p ps] eqn:Es.
        -- now apply split_from_nonempty in Es.
        -- rewrite concat_cons_char. now rewrite IH.
    + apply IH. lia.
Qed.

Lemma join_split (sep s : string) :
  sep <> "" -> JS.join sep (JS.split sep s) = s.
Proof.
  intros H. unfold JS.split. destruct sep as [|a sep]; [congruence|].
  now rewrite join_split_from by (congruence || apply Nat.le_0_l).
Qed.

(** Splitting at line feeds. *)
Lemma startsWith_newline (c : ascii) (s : string) :
  JS.startsWith JS.newline (String c s) = Ascii.eqb c JS.LF.
Proof.
  unfold JS.startsWith, JS.newline. cbn [String.prefix].
  destruct (ascii_dec JS.LF c) as [<-|Hne].
  - rewrite Ascii.eqb_refl. now destruct s.
  - symmetry. apply Ascii.eqb_neq. congruence.
Qed.

Lemma split_newline_unfold (s : string) :
  JS.split JS.newline s = JS.split_from JS.newline 0 s.
Proof. reflexivity. Qed.

Lemma split_newline_single (p : string) :
  occurs JS.LF p = false -> JS.split JS.newline p = [p].
Proof.
  rewrite split_newline_unfold.
  induction p as [|c p IH]; intros H; simpl in H.
  - reflexivity.
  - apply orb_false_iff in H. destruct H as [Hc Hp].
    cbn [JS.split_from]. rewrite startsWith_newline, Hc.
    now rewrite (IH Hp).
Qed.

Lemma split_newline_append (p t : string) :
  occurs JS.LF p = false ->
  JS.split JS.newline (p ++ JS.newline ++ t) = p :: JS.split JS.newline t.
Proof.
  rewrite !split_newline_unfold.
  induction p as [|c p IH]; intros H; simpl in H.
  - change ("" ++ JS.newline ++ t) with (String JS.LF t).
    cbn [JS.split_from]. rewrite startsWith_newline.
    now rewrite Ascii.eqb_refl.
  - apply orb_false_iff in H. destruct H as [Hc Hp].
    change (String c p ++ JS.newline ++ t)
      with (String c (p ++ JS.newline ++ t)).
    cbn [JS.split_from]. rewrite startsWith_newline, Hc.
    now rewrite (IH Hp).
Qed.

End SplitFacts.

(* ================================================================= *)
(** ** Regular expressions: what a match is and where matches lie *)

Section MatchFacts.

Import RegExp.

Lemma leaves_suffix_final : leaves_suffix (fun rest => Some rest).
Proof. intros s r [= ->]. now exists "". Qed.

Lemma match_atom_suffix (a : Atom) (k : Continuation) :
  leaves_suffix k -> leaves_suffix (fun s => match_atom a s k).
Proof.
  intros Hk [|c s] r H; simpl in H; [discriminate|].
  destruct (atom_matches a c); [|discriminate].
  destruct (Hk _ _ H) as [p ->]. now exists (String c p).
Qed.

Lemma repeat_greedy_suffix (a : Atom) (k : Continuation) :
  leaves_suffix k -> leaves_suffix (fun s => repeat_greedy a s k).
Proof.
  intros Hk s. induction s as [|c s IH]; intros r H; simpl in H.
  - now apply Hk.
  - destruct (atom_matches a c); [|now apply Hk].
    destruct (repeat_greedy a s k) as [r'|] eqn:E; [|now apply Hk].
    injection H as ->. destruct (IH _ eq_refl) as [p ->].
    now exists (String c p).
Qed.

Lemma match_term_suffix (t : Term) (k : Continuation) :
  leaves_suffix k -> leaves_suffix (fun s => match_term t s k).
Proof.
  intros Hk s r H. unfold match_term in H.
  destruct (quantifier t).
  - now apply (match_atom_suffix (atom t) Hk s).
  - now apply (repeat_greedy_suffix (atom t) Hk s).
  - apply (match_atom_suffix (atom t)
             (repeat_greedy_suffix (atom t) Hk) s); exact H.
  - destruct (match_atom (atom t) s k) as [r'|] eqn:E.
    + injection H as ->. now apply (match_atom_suffix (atom t) Hk s).
    + now apply Hk.
Qed.

Lemma match_alternative_suffix (ts : Alternative) (k : Continuation) :
  leaves_suffix k -> leaves_suffix (fun s => match_alternative ts s k).
Proof.
  intros Hk. induction ts as [|t ts IH]; simpl.
  - exact Hk.
  - exact (match_term_suffix t IH).
Qed.

Lemma match_disjunction_suffix (d : Disjunction) (k : Continuation) :
  leaves_suffix k -> leaves_suffix (fun s => match_disjunction d s k).
Proof.
  intros Hk s r. induction d as [|a d IH]; simpl; [discriminate|].
  destruct (match_alternative a s k) as [r'|] eqn:E; [|exact IH].
  intros [= ->]. now apply (match_alternative_suffix a Hk s).
Qed.

(** The text of a match and what is left behind it make up the input. *)
Lemma match_at_splits (re : Disjunction) (s rest : string) :
  match_at re s = Some rest ->
  let n := String.length s - String.length rest in
  s = String.substring 0 n s ++ rest
  /\ String.length (String.substring 0 n s) = n.
Proof.
  intros H n.
  destruct (match_disjunction_suffix re leaves_suffix_final s H) as [p Hp].
  assert (Hn : n = String.length p).
  { unfold n. rewrite Hp, length_append. lia. }
  rewrite Hn, Hp, substring_0_append. split; reflexivity.
Qed.

(** Every match reported from position [idx] on, with [skip] code units
    still to pass, starts at [idx + skip] or later. *)
Lemma scan_index_ge (re : Disjunction) (s : string) :
  forall skip idx m, In m (scan re skip idx s) -> idx + skip <= index m.
Proof.
  induction s as [|c s IH]; intros skip idx m H;
    destruct skip as [|k]; simpl in H.
  - destruct (match_at re ""); simpl in H; [|contradiction].
    destruct H as [<-|[]]. simpl. lia.
  - contradiction.
  - destruct (match_at re (String c s)) as [rest|].
    + destruct H as [<-|H]; [simpl; lia|].
      apply IH in H. lia.
    + apply IH in H. lia.
  - apply IH in H. lia.
Qed.

Lemma scan_sorted (re : Disjunction) (s : string) :
  forall skip idx, StronglySorted precedes (scan re skip idx s).
Proof.
  induction s as [|c s IH]; intros skip idx;
    destruct skip as [|k]; cbn [scan].
  - destruct (match_at re ""); repeat constructor.
  - constructor.
  - destruct (match_at re (String c s)) as [rest|] eqn:E; [|apply IH].
    constructor; [apply IH|].
    apply Forall_forall. intros m Hm.
    apply scan_index_ge in Hm.
    destruct (match_at_splits _ _ E) as [_ Hlen].
    unfold precedes. cbn [index matched]. rewrite Hlen. lia.
  - apply IH.
Qed.

(** Every match reported is the text found at its index. *)
Lemma scan_occurrence (re : Disjunction) (s : string) :
  forall pre skip,
    Forall (fun m =>
              String.substring (index m) (String.length (matched m)) (pre ++ s)
              = matched m)
           (scan re skip (String.length pre) s).
Proof.
  induction s as [|c s IH]; intros pre skip.
  - destruct skip as [|k]; cbn [scan]; [|constructor].
    destruct (match_at re "") as [rest|]; [|constructor].
    constructor; [|constructor].
    cbn [index matched]. rewrite substring_0_0. simpl String.length.
    now rewrite substring_skip.
  - assert (Hs : forall k,
               Forall (fun m =>
                         String.substring (index m)
                                          (String.length (matched m))
                                          (pre ++ String c s)
                         = matched m)
                      (scan re k (S (String.length pre)) s)).
    { intros k. specialize (IH (pre ++ String c "") k).
      rewrite append_assoc, length_append in IH. simpl in IH.
      now rewrite Nat.add_1_r in IH. }
    destruct skip as [|k]; cbn [scan]; [|apply Hs].
    destruct (match_at re (String c s)) as [rest|] eqn:E; [|apply Hs].
    constructor; [|apply Hs].
    destruct (match_at_splits _ _ E) as [_ Hlen].
    cbn [index matched]. rewrite Hlen. apply substring_skip.
Qed.

(** No match is reported where the pattern matches nowhere. *)
Lemma scan_nowhere (re : Disjunction) (s : string) :
  (forall k, k <= String.length s -> match_at re (drop k s) = None) ->
  forall idx, scan re 0 idx s = [].
Proof.
  induction s as [|c s IH]; intros H idx;
    pose proof (H 0 (Nat.le_0_l _)) as H0; cbn [drop] in H0;
    cbn [scan]; rewrite H0.
  - reflexivity.
  - apply IH. intros k Hk. apply (H (S k)). simpl. lia.
Qed.

Lemma scan_nil_nowhere (re : Disjunction) (s : string) :
  forall idx, scan re 0 idx s = [] ->
  forall k, k <= String.length s -> match_at re (drop k s) = None.
Proof.
  induction s as [|c s IH]; intros idx H k Hk; simpl in H.
  - assert (k = 0) as -> by (simpl in Hk; lia). simpl.
    destruct (match_at re ""); [discriminate | reflexivity].
  - destruct (match_at re (String c s)) eqn:E; [discriminate|].
    destruct k as [|k]; [exact E|].
    simpl. apply (IH _ H). simpl in Hk. lia.
Qed.

End MatchFacts.

(* ================================================================= *)
(** ** Numbers: auxiliary facts *)

Section NumberFacts.

Import ParseInt.

Lemma digitValue_nonneg (radix : Z) (c : ascii) (d : Z) :
  digitValue radix c = Some d -> (0 <= d)%Z.
Proof.
  unfold digitValue.
  set (n := Z.of_nat (nat_of_ascii c)).
  destruct ((48 <=? n)%Z && (n <=? 57)%Z) eqn:E1.
  - apply andb_prop in E1. destruct E1 as [E1 _].
    destruct (n - 48 <? radix)%Z; intros [= <-]; lia.
  - destruct ((97 <=? n)%Z && (n <=? 122)%Z) eqn:E2.
    + apply andb_prop in E2. destruct E2 as [E2 _].
      destruct (n - 87 <? radix)%Z; intros [= <-]; lia.
    + destruct ((65 <=? n)%Z && (n <=? 90)%Z) eqn:E3; [|discriminate].
      apply andb_prop in E3. destruct E3 as [E3 _].
      destruct (n - 55 <? radix)%Z; intros [= <-]; lia.
Qed.

Lemma digits_nonneg (radix : Z) (s : string) :
  (0 <= radix)%Z ->
  forall acc m,
    (forall a, acc = Some a -> (0 <= a)%Z) ->
    digits radix acc s = Some m -> (0 <= m)%Z.
Proof.
  intros Hr. induction s as [|c s IH]; intros acc m Hacc H; simpl in H.
  - now apply Hacc.
  - destruct (digitValue radix c) as [d|] eqn:E; [|now apply Hacc].
    apply digitValue_nonneg in E.
    refine (IH _ _ _ H). intros a Ha.
    destruct acc as [a0|]; injection Ha as <-; [|exact E].
    specialize (Hacc _ eq_refl). nia.
Qed.

Ltac destruct_matches :=
  repeat match goal with
         | |- context [match ?x with _ => _ end] => destruct x
         end.

Lemma radixPrefix_radix (s : string) :
  fst (radixPrefix s) = 10%Z \/ fst (radixPrefix s) = 16%Z.
Proof. unfold radixPrefix. destruct_matches; auto. Qed.

Lemma sign_cases (s : string) :
  fst (sign s) = 1%Z \/ exists rest, s = String "-" rest.
Proof. unfold sign. destruct_matches; eauto. Qed.

(** Integers below 2^53 in magnitude are numbers as they are. *)
Lemma number_of_integer_exact (z : Z) :
  (Z.abs z < 2 ^ 53)%Z -> number_of_integer z = Num z.
Proof.
  intros H. unfold number_of_integer. cbv zeta.
  apply Z.ltb_lt in H. now rewrite H.
Qed.

Lemma number_of_integer_not_NaN (z : Z) : number_of_integer z <> NaN.
Proof.
  unfold number_of_integer. cbv zeta.
  destruct (Z.abs z <? 2 ^ 53)%Z; [discriminate|].
  match goal with
  | |- context [(2 ^ 1024 <=? ?m)%Z] => destruct (2 ^ 1024 <=? m)%Z
  end; discriminate.
Qed.

(** Rounding keeps the sign. *)
Lemma number_of_integer_negative (z : Z) :
  negative (number_of_integer z) = true -> (z < 0)%Z.
Proof.
  unfold number_of_integer. cbv zeta.
  destruct (Z.abs z <? 2 ^ 53)%Z.
  - cbn [negative]. apply Z.ltb_lt.
  - match goal with
    | |- context [(2 ^ 1024 <=? Z.shiftl ?q ?e)%Z] =>
        assert (Hq : (0 <= Z.shiftl q e)%Z);
        [|destruct (2 ^ 1024 <=? Z.shiftl q e)%Z]
    end.
    + apply Z.shiftl_nonneg.
      assert (H0 : (0 <= Z.shiftr (Z.abs z) (Z.log2 (Z.abs z) - 52))%Z)
        by (apply Z.shiftr_nonneg; apply Z.abs_nonneg).
      match goal with
      | |- context [if ?b then _ else _] => destruct b
      end; lia.
    + cbn [negative]. apply Z.ltb_lt.
    + cbn [negative]. intros H. apply Z.ltb_lt in H.
      destruct (Z_lt_le_dec z 0) as [Hz|Hz]; [exact Hz|].
      exfalso. apply Z.sgn_nonneg in Hz. nia.
Qed.

(** A negative result comes from a minus sign in front of the digits. *)
Lemma parseIntString_negative (input : string) :
  negative (parseIntString input) = true ->
  exists rest, trimStart input = String "-" rest.
Proof.
  unfold parseIntString.
  destruct (sign_cases (trimStart input)) as [Hs|Hs]; [|intros _; exact Hs].
  destruct (sign (trimStart input)) as [sg s1]. simpl in Hs. subst sg.
  pose proof (radixPrefix_radix s1) as Hr.
  destruct (radixPrefix s1) as [radix s2]. simpl in Hr.
  destruct (digits radix None s2) as [m|] eqn:Ed; [|discriminate].
  intros Hneg. apply number_of_integer_negative in Hneg.
  assert (Hm : (0 <= m)%Z).
  { apply (@digits_nonneg radix s2 ltac:(lia) None); [discriminate | exact Ed]. }
  exfalso. lia.
Qed.

(** [parseInt] reads no number exactly when no digit stands at the front,
    behind the white space, the sign and the hexadecimal prefix. *)
Lemma digits_some (radix : Z) (s : string) (a : Z) :
  digits radix (Some a) s <> None.
Proof.
  revert a. induction s as [|c s IH]; intros a; simpl; [discriminate|].
  destruct (digitValue radix c); [apply IH | discriminate].
Qed.

Lemma digits_none (radix : Z) (s : string) :
  digits radix None s = None
  <-> match s with
      | EmptyString => True
      | String c _ => digitValue radix c = None
      end.
Proof.
  destruct s as [|c s]; simpl; [tauto|].
  destruct (digitValue radix c) as [d|]; [|tauto].
  split; [intros H; now apply digits_some in H | discriminate].
Qed.

Lemma parseIntString_NaN (input : string) :
  parseIntString input = NaN
  <-> let (radix, s) := radixPrefix (snd (sign (trimStart input))) in
      match s with
      | EmptyString => True
      | String c _ => digitValue radix c = None
      end.
Proof.
  unfold parseIntString.
  destruct (sign (trimStart input)) as [sg s1]. cbn [snd].
  destruct (radixPrefix s1) as [radix s2].
  rewrite <- digits_none.
  destruct (digits radix None s2) as [m|]; split; try congruence.
  intros H. now apply number_of_integer_not_NaN in H.
Qed.

Lemma parseInt_undefined : parseInt None = NaN.
Proof. reflexivity. Qed.

(** The decimal text of a negative integer starts with a minus sign. *)
Lemma number_toString_negative (z : Z) :
  (z < 0)%Z -> exists d, number_toString (Num z) = String "-" d.
Proof.
  destruct z as [|p|p]; try lia. intros _. unfold number_toString.
  destruct (Z.abs (Z.neg p) <? 2 ^ 53)%Z.
  - cbn [Z.to_int DecimalString.NilZero.string_of_int].
    eexists. reflexivity.
  - change (Z.neg p <? 0)%Z with true. cbv iota. cbn [append].
    eexists. reflexivity.
Qed.

End NumberFacts.

(* ================================================================= *)
(** ** The plugin: auxiliary facts *)

Section PluginFacts.

Lemma create_default :
  RegExp.create (regexp (settings defaultPlugin)) = Some defaultRegExp.
Proof. reflexivity. Qed.

Lemma collection_matched (regex : RegExp.Disjunction) (inputText : string) :
  collection regex inputText
  = map RegExp.matched (RegExp.matchAll regex inputText).
Proof.
  unfold collection, JS.flat.
  induction (RegExp.matchAll regex inputText) as [|m ms IH]; simpl;
    [reflexivity | now rewrite IH].
Qed.

Lemma getTimeTrackerTemplateInfo_created
      (this : MyPlugin) (inputText : string) (regex : RegExp.Disjunction) :
  RegExp.create (regexp (settings this)) = Some regex ->
  getTimeTrackerTemplateInfo this inputText
  = Some (map infoOfMatch (collection regex inputText)).
Proof. intros H. unfold getTimeTrackerTemplateInfo. now rewrite H. Qed.

(** The minutes of a record: what [parseInt] reads in the third token, and
    zero when it reads no number there. *)
Lemma infoOfMatch_time (v : string) :
  time (infoOfMatch v)
  = match parseInt (JS.get (JS.split " " v) 2) with
    | NaN => Num 0
    | n => n
    end.
Proof.
  unfold infoOfMatch. cbn [time].
  now destruct (parseInt (JS.get (JS.split " " v) 2)).
Qed.

Lemma infoOfMatch_not_NaN (v : string) : time (infoOfMatch v) <> NaN.
Proof.
  rewrite infoOfMatch_time.
  destruct (parseInt (JS.get (JS.split " " v) 2)); discriminate.
Qed.

(** With at most three tokens nothing is left for the description. *)
Lemma infoOfMatch_text_short (v : string) :
  List.length (JS.split " " v) <= 3 -> text (infoOfMatch v) = "".
Proof.
  intros H. unfold infoOfMatch. cbn [text]. unfold JS.slice.
  replace (List.length (JS.split " " v) - 3) with 0 by lia.
  reflexivity.
Qed.

(** With fewer than three tokens there is no minutes token. *)
Lemma infoOfMatch_time_short (v : string) :
  List.length (JS.split " " v) < 3 -> time (infoOfMatch v) = Num 0.
Proof.
  intros H. rewrite infoOfMatch_time.
  assert (E : JS.get (JS.split " " v) 2 = None).
  { unfold JS.get. apply nth_error_None. lia. }
  now rewrite E.
Qed.

Lemma arithmeticSum_abs_nonneg (infos : list TimeTrackerTemplateInfo) :
  (0 <= arithmeticSum (map (fun r => Z.abs (minutesOf r)) infos))%Z.
Proof.
  unfold arithmeticSum. induction infos as [|r infos IH]; simpl; lia.
Qed.

Lemma arithmeticSum_abs_bound (infos : list TimeTrackerTemplateInfo) :
  (Z.abs (arithmeticSum (map minutesOf infos))
   <= arithmeticSum (map (fun r => Z.abs (minutesOf r)) infos))%Z.
Proof.
  unfold arithmeticSum. induction infos as [|r infos IH]; simpl; lia.
Qed.

(** Within the exact range the additions of [reduce] are those of the
    integers. *)
Lemma sumOfTimes_from (infos : list TimeTrackerTemplateInfo) :
  Forall (fun r => time r = Num (minutesOf r)) infos ->
  forall a : Z,
    (Z.abs a + arithmeticSum (map (fun r => Z.abs (minutesOf r)) infos)
     < 2 ^ 53)%Z ->
    fold_left (fun accumulator object => number_add accumulator (time object))
              infos (Num a)
    = Num (a + arithmeticSum (map minutesOf infos)).
Proof.
  induction 1 as [|r infos Hr _ IH]; intros a Ha.
  - simpl. now rewrite Z.add_0_r.
  - cbn [fold_left]. rewrite Hr. cbn [number_add].
    pose proof (arithmeticSum_abs_nonneg infos) as Hnn.
    change (arithmeticSum (map (fun r0 => Z.abs (minutesOf r0)) (r :: infos)))
      with (Z.abs (minutesOf r)
            + arithmeticSum (map (fun r0 => Z.abs (minutesOf r0)) infos))%Z
      in Ha.
    rewrite number_of_integer_exact by lia.
    rewrite IH by lia.
    change (arithmeticSum (map minutesOf (r :: infos)))
      with (minutesOf r + arithmeticSum (map minutesOf infos))%Z.
    f_equal. lia.
Qed.

Lemma sumOfTimes_arithmetic (infos : list TimeTrackerTemplateInfo) :
  withinExactRange infos ->
  sumOfTimes infos = Num (arithmeticSum (map minutesOf infos)).
Proof.
  intros [Hint Hsum]. unfold sumOfTimes.
  now rewrite sumOfTimes_from by (assumption || (simpl; lia)).
Qed.

Lemma number_strict_eq_Num (x : Z) (b : number) :
  number_strict_eq (Num x) b = true <-> b = Num x.
Proof.
  destruct b as [y| |t]; simpl; split; try discriminate.
  - intros H. apply Z.eqb_eq in H. now subst.
  - intros [= ->]. apply Z.eqb_refl.
Qed.

Lemma StronglySorted_nth (A : Type) (R : A -> A -> Prop) (l : list A) :
  StronglySorted R l ->
  forall i j a b,
    i < j -> nth_error l i = Some a -> nth_error l j = Some b -> R a b.
Proof.
  induction 1 as [|x l _ IH Hx]; intros i j a b Hij Hi Hj.
  - destruct i; discriminate.
  - destruct j as [|j]; [lia|]. simpl in Hj.
    destruct i as [|i]; simpl in Hi.
    + injection Hi as <-. rewrite Forall_forall in Hx.
      apply Hx. now apply nth_error_In with j.
    + apply (IH i j); [lia | assumption | assumption].
Qed.

(** The two revisions agree on the id and on the description of a record;
    they differ in the minutes only, and only where [parseInt] reads no
    number. *)
Lemma earlier_infoOfMatch (v : string) :
  id (Earlier.infoOfMatch v) = id (infoOfMatch v)
  /\ text (Earlier.infoOfMatch v) = text (infoOfMatch v)
  /\ (time (Earlier.infoOfMatch v) = time (infoOfMatch v)
      \/ time (Earlier.infoOfMatch v) = NaN /\ time (infoOfMatch v) = Num 0).
Proof.
  split; [reflexivity|]. split; [reflexivity|].
  rewrite infoOfMatch_time. unfold Earlier.infoOfMatch. cbn [time].
  destruct (parseInt (JS.get (JS.split " " v) 2)); auto.
Qed.

End PluginFacts.

(* ================================================================= *)
(** ** The properties of the specification *)

(** C1. With the default pattern, extraction on the text
    [`tt ABC-1 30 did work`] (backticks included) gives exactly one record:
    id [ABC-1], minutes 30, description [did work], the closing backtick
    stripped. *)
Theorem default_pattern_extracts_the_record :
  getTimeTrackerTemplateInfo defaultPlugin "`tt ABC-1 30 did work`"
  = Some [ {| id := Some "ABC-1"; time := Num 30; text := "did work" |} ].
Proof. vm_compute. reflexivity. Qed.

(** C2. A match whose minutes token [parseInt] cannot read gives a record
    with minutes 0, and extraction answers with its records all the same:
    the record at the position of that match has minutes 0. *)
Theorem unparsable_minutes_become_zero :
  forall (this : MyPlugin) (inputText : string) (regex : RegExp.Disjunction)
         (i : nat) (v : string),
    RegExp.create (regexp (settings this)) = Some regex ->
    nth_error (collection regex inputText) i = Some v ->
    parseInt (JS.get (JS.split " " v) 2) = NaN ->
    exists infos r,
      getTimeTrackerTemplateInfo this inputText = Some infos
      /\ List.length infos = List.length (collection regex inputText)
      /\ nth_error infos i = Some r
      /\ r = infoOfMatch v
      /\ time r = Num 0.
Proof.
  intros this inputText regex i v Hre Hv Hnan.
  exists (map infoOfMatch (collection regex inputText)), (infoOfMatch v).
  split; [now apply getTimeTrackerTemplateInfo_created|].
  split; [apply length_map|].
  split; [now apply map_nth_error|].
  split; [reflexivity|].
  rewrite infoOfMatch_time. now rewrite Hnan.
Qed.

Lemma unparsable_minutes_become_zero_witness :
  exists infos r,
    getTimeTrackerTemplateInfo defaultPlugin "`tt ABC-1 xx note`" = Some infos
    /\ List.length infos
       = List.length (collection defaultRegExp "`tt ABC-1 xx note`")
    /\ nth_error infos 0 = Some r
    /\ r = infoOfMatch "`tt ABC-1 xx note`"
    /\ time r = Num 0.
Proof.
  apply (@unparsable_minutes_become_zero
           defaultPlugin "`tt ABC-1 xx note`" defaultRegExp 0
           "`tt ABC-1 xx note`");
    reflexivity.
Defined.

(** The example of C2, evaluated; the earlier revision had [NaN] there. *)
Example unparsable_minutes_example :
  getTimeTrackerTemplateInfo defaultPlugin "`tt ABC-1 xx note`"
  = Some [ {| id := Some "ABC-1"; time := Num 0; text := "note" |} ]
  /\ Earlier.getTimeTrackerTemplateInfo
       {| Earlier.settings := Earlier.DEFAULT_SETTINGS |} "`tt ABC-1 xx note`"
     = Some [ {| id := Some "ABC-1"; time := NaN; text := "note" |} ].
Proof. split; vm_compute; reflexivity. Qed.

(** C3, as the specification states it, fails: numbers are doubles, and
    the sum of the minutes 9007199254740992 and 1 is shown as
    9007199254740992, not as their arithmetic sum. *)
Lemma large_sum_counterexample :
  ~ (forall infos el,
        getTimeTrackerTemplateInfo
          defaultPlugin
          ("`tt A-1 9007199254740992 x`" ++ JS.newline ++ "`tt B-2 1 y`")
        = Some infos ->
        setMinutesTuStatusBar
          defaultPlugin {| shown := "" |}
          ("`tt A-1 9007199254740992 x`" ++ JS.newline ++ "`tt B-2 1 y`")
        = Some el ->
        shown el
        = "Minutes on file: '"
          ++ decimal (arithmeticSum (map minutesOf infos))
          ++ "'. M: '480'. D: '"
          ++ decimal (480 - arithmeticSum (map minutesOf infos)) ++ "'").
Proof.
  intros H.
  specialize (H [ {| id := Some "A-1"; time := Num 9007199254740992;
                     text := "x" |};
                  {| id := Some "B-2"; time := Num 1; text := "y" |} ]
                {| shown := "Minutes on file: '9007199254740992'. M: '480'. D: '-9007199254740512'" |}).
  assert (H1 : getTimeTrackerTemplateInfo
                 defaultPlugin
                 ("`tt A-1 9007199254740992 x`" ++ JS.newline ++ "`tt B-2 1 y`")
               = Some [ {| id := Some "A-1"; time := Num 9007199254740992;
                           text := "x" |};
                        {| id := Some "B-2"; time := Num 1; text := "y" |} ])
    by (vm_compute; reflexivity).
  assert (H2 : setMinutesTuStatusBar
                 defaultPlugin {| shown := "" |}
                 ("`tt A-1 9007199254740992 x`" ++ JS.newline ++ "`tt B-2 1 y`")
               = Some {| shown := "Minutes on file: '9007199254740992'. M: '480'. D: '-9007199254740512'" |})
    by (vm_compute; reflexivity).
  specialize (H H1 H2). vm_compute in H. discriminate H.
Qed.

(** The counterexample of C3, evaluated. *)
Example large_sum_example :
  getTimeTrackerTemplateInfo
    defaultPlugin
    ("`tt A-1 9007199254740992 x`" ++ JS.newline ++ "`tt B-2 1 y`")
  = Some [ {| id := Some "A-1"; time := Num 9007199254740992; text := "x" |};
           {| id := Some "B-2"; time := Num 1; text := "y" |} ]
  /\ calculateMinutes
       defaultPlugin
       ("`tt A-1 9007199254740992 x`" ++ JS.newline ++ "`tt B-2 1 y`")
     = Some (Num 9007199254740992)
  /\ (9007199254740992 + 1 = 9007199254740993)%Z.
Proof. repeat split; vm_compute; reflexivity. Qed.

(** C3, amended.  When the minutes of the records are integers whose
    magnitudes add up to less than 2^53, the sum shown is their arithmetic
    sum.  The status text is [Minutes on file: 'sum'] when the sum equals
    the configured maximum, and otherwise
    [Minutes on file: 'sum'. M: 'max'. D: 'dif'] with [dif = max - sum] as
    numbers subtract; it is the integer [max - sum] when that is below 2^53
    in magnitude, and then negative, printed with a minus sign, when the sum
    exceeds the maximum. *)
Theorem status_text_shows_sum_and_budget :
  forall (plugin : MyPlugin) (statusBarItemEl : StatusBarItem)
         (inputText : string) (regex : RegExp.Disjunction)
         (infos : list TimeTrackerTemplateInfo),
    RegExp.create (regexp (settings plugin)) = Some regex ->
    getTimeTrackerTemplateInfo plugin inputText = Some infos ->
    withinExactRange infos ->
    exists el,
      setMinutesTuStatusBar plugin statusBarItemEl inputText = Some el
      /\ let sum := arithmeticSum (map minutesOf infos) in
         let max := maxTimeInMinutes (settings plugin) in
         calculateMinutes plugin inputText = Some (Num sum)
         /\ (max = Num sum ->
             shown el = "Minutes on file: '" ++ decimal sum ++ "'")
         /\ (max <> Num sum ->
             shown el = "Minutes on file: '" ++ decimal sum ++ "'. M: '"
                        ++ number_toString max ++ "'. D: '"
                        ++ number_toString (number_sub max (Num sum)) ++ "'")
         /\ (forall m : Z,
                max = Num m ->
                (Z.abs (m - sum) < 2 ^ 53)%Z ->
                number_sub max (Num sum) = Num (m - sum)
                /\ ((m < sum)%Z ->
                    exists d, decimal (m - sum) = String "-" d)).
Proof.
  intros plugin el0 inputText regex infos Hre Hinfos Hrange.
  assert (Hsum : calculateMinutes plugin inputText
                 = Some (Num (arithmeticSum (map minutesOf infos)))).
  { unfold calculateMinutes. rewrite Hinfos.
    now rewrite sumOfTimes_arithmetic. }
  exists (setText el0
            (statusText (Num (arithmeticSum (map minutesOf infos)))
                        (maxTimeInMinutes (settings plugin)))).
  split; [unfold setMinutesTuStatusBar; now rewrite Hsum|].
  cbv zeta. split; [exact Hsum|].
  unfold setText, statusText, decimal. cbn [shown].
  split; [|split].
  - intros ->. cbn [number_strict_eq]. now rewrite Z.eqb_refl.
  - intros Hne.
    destruct (number_strict_eq _ _) eqn:E; [|reflexivity].
    apply number_strict_eq_Num in E. congruence.
  - intros m -> Hm. split.
    + unfold number_sub. cbn [number_neg number_add].
      rewrite number_of_integer_exact
        by (rewrite <- Z.add_opp_r in Hm; exact Hm).
      f_equal; lia.
    + intros Hlt. apply number_toString_negative. lia.
Qed.

Lemma status_text_shows_sum_and_budget_witness :
  exists el,
    setMinutesTuStatusBar defaultPlugin {| shown := "" |}
                          "`tt ABC-1 30 did work`" = Some el
    /\ shown el = "Minutes on file: '30'. M: '480'. D: '450'".
Proof.
  destruct (@status_text_shows_sum_and_budget
              defaultPlugin {| shown := "" |} "`tt ABC-1 30 did work`"
              defaultRegExp
              [ {| id := Some "ABC-1"; time := Num 30; text := "did work" |} ]
              eq_refl eq_refl)
    as (el & Hset & _).
  - split; [repeat constructor | vm_compute; reflexivity].
  - exists el. split; [exact Hset|].
    vm_compute in Hset. injection Hset as <-. reflexivity.
Defined.

(** The three shapes of the status text of C3, evaluated: under budget, on
    budget, over budget. *)
Example status_text_examples :
  statusText (Num 30) (Num 480) = "Minutes on file: '30'. M: '480'. D: '450'"
  /\ statusText (Num 480) (Num 480) = "Minutes on file: '480'"
  /\ statusText (Num 500) (Num 480)
     = "Minutes on file: '500'. M: '480'. D: '-20'"
  /\ statusText (Num 30) NaN = "Minutes on file: '30'. M: 'NaN'. D: 'NaN'".
Proof. repeat split; vm_compute; reflexivity. Qed.

(** C4. The template has one line per record, in the order of the records:
    [id__minutes_description], two underscores behind the id and one behind
    the minutes.  The lines are joined by one line feed each and none
    follows the last line, so that cutting the template at its line feeds
    gives the lines back.  The record (ABC-1, 30, did work) alone renders as
    [ABC-1__30_did work]. *)
Theorem template_has_one_line_per_record :
  forall (info : list TimeTrackerTemplateInfo),
    (forall r i m,
        In r info -> id r = Some i -> time r = Num m ->
        templateLine r = i ++ "__" ++ decimal m ++ "_" ++ text r)
    /\ getTimeTrackerTemplate info
       = match info with
         | [] => ""
         | [r] => templateLine r
         | r :: rest =>
             templateLine r ++ JS.newline ++ getTimeTrackerTemplate rest
         end
    /\ (info <> [] ->
        Forall (fun r => occurs JS.LF (templateLine r) = false) info ->
        JS.split JS.newline (getTimeTrackerTemplate info)
        = map templateLine info)
    /\ getTimeTrackerTemplate
         [ {| id := Some "ABC-1"; time := Num 30; text := "did work" |} ]
       = "ABC-1__30_did work".
Proof.
  intros info. split; [|split; [|split]].
  - intros r i m _ Hi Hm. unfold templateLine, decimal.
    now rewrite Hi, Hm.
  - destruct info as [|r [|r' rest]]; reflexivity.
  - intros Hne Hlf. induction Hlf as [|r rest Hr Hrest IH]; [congruence|].
    destruct rest as [|r' rest].
    + unfold getTimeTrackerTemplate. simpl.
      now apply split_newline_single.
    + change (getTimeTrackerTemplate (r :: r' :: rest))
        with (templateLine r ++ JS.newline
              ++ getTimeTrackerTemplate (r' :: rest)).
      rewrite split_newline_append by exact Hr.
      rewrite IH by discriminate. reflexivity.
  - vm_compute. reflexivity.
Qed.

Lemma template_has_one_line_per_record_witness :
  JS.split JS.newline
           (getTimeTrackerTemplate
              [ {| id := Some "ABC-1"; time := Num 30; text := "did work" |};
                {| id := Some "B-2"; time := Num 5; text := "" |} ])
  = [ "ABC-1__30_did work"; "B-2__5_" ].
Proof.
  apply (proj1 (proj2 (proj2 (template_has_one_line_per_record
           [ {| id := Some "ABC-1"; time := Num 30; text := "did work" |};
             {| id := Some "B-2"; time := Num 5; text := "" |} ])))).
  - discriminate.
  - repeat constructor.
Defined.

(** C5. Where the pattern has no match in the text, extraction gives the
    empty sequence and the minutes sum to 0.  The pattern has no match when
    it matches at no position of the text. *)
Theorem no_match_gives_no_record :
  forall (plugin : MyPlugin) (inputText : string)
         (regex : RegExp.Disjunction),
    RegExp.create (regexp (settings plugin)) = Some regex ->
    RegExp.matchAll regex inputText = [] ->
    getTimeTrackerTemplateInfo plugin inputText = Some []
    /\ calculateMinutes plugin inputText = Some (Num 0)
    /\ (RegExp.matchAll regex inputText = []
        <-> forall k, k <= String.length inputText ->
                      RegExp.match_at regex (drop k inputText) = None).
Proof.
  intros plugin inputText regex Hre Hnone.
  assert (Hinfos : getTimeTrackerTemplateInfo plugin inputText = Some []).
  { rewrite (getTimeTrackerTemplateInfo_created _ _ Hre).
    rewrite collection_matched, Hnone. reflexivity. }
  split; [exact Hinfos|]. split.
  - unfold calculateMinutes. now rewrite Hinfos.
  - split.
    + intros H. now apply scan_nil_nowhere with 0.
    + intros H. now apply scan_nowhere.
Qed.

Lemma no_match_gives_no_record_witness :
  getTimeTrackerTemplateInfo defaultPlugin "no entry today, tt 30" = Some []
  /\ calculateMinutes defaultPlugin "no entry today, tt 30" = Some (Num 0).
Proof.
  destruct (@no_match_gives_no_record
              defaultPlugin "no entry today, tt 30" defaultRegExp
              eq_refl eq_refl) as (H1 & H2 & _).
  split; [exact H1 | exact H2].
Defined.

(** The other direction: a pattern that matches nowhere has no match. *)
Lemma matchAll_nowhere (regex : RegExp.Disjunction) (inputText : string) :
  (forall k, k <= String.length inputText ->
             RegExp.match_at regex (drop k inputText) = None) ->
  RegExp.matchAll regex inputText = [].
Proof. intros H. now apply scan_nowhere. Qed.

(** C6. The records come in the order of the matches, and the matches lie
    in the text from left to right: of two records, the earlier one comes
    from a match that starts further left and ends before the other match
    starts; every match is the text found at its position. *)
Theorem records_follow_matches_left_to_right :
  forall (plugin : MyPlugin) (inputText : string)
         (regex : RegExp.Disjunction),
    RegExp.create (regexp (settings plugin)) = Some regex ->
    exists infos,
      getTimeTrackerTemplateInfo plugin inputText = Some infos
      /\ infos = map (fun m => infoOfMatch (RegExp.matched m))
                     (RegExp.matchAll regex inputText)
      /\ Forall (fun m =>
                   String.substring (RegExp.index m)
                                    (String.length (RegExp.matched m))
                                    inputText
                   = RegExp.matched m)
                (RegExp.matchAll regex inputText)
      /\ forall i j mi mj,
          i < j ->
          nth_error (RegExp.matchAll regex inputText) i = Some mi ->
          nth_error (RegExp.matchAll regex inputText) j = Some mj ->
          nth_error infos i = Some (infoOfMatch (RegExp.matched mi))
          /\ nth_error infos j = Some (infoOfMatch (RegExp.matched mj))
          /\ RegExp.index mi < RegExp.index mj
          /\ RegExp.index mi + String.length (RegExp.matched mi)
             <= RegExp.index mj.
Proof.
  intros plugin inputText regex Hre.
  exists (map (fun m => infoOfMatch (RegExp.matched m))
              (RegExp.matchAll regex inputText)).
  split.
  { rewrite (getTimeTrackerTemplateInfo_created _ _ Hre).
    now rewrite collection_matched, map_map. }
  split; [reflexivity|]. split.
  { exact (scan_occurrence regex inputText "" 0). }
  intros i j mi mj Hij Hi Hj.
  split; [now apply (map_nth_error (fun m => infoOfMatch (RegExp.matched m)))|].
  split; [now apply (map_nth_error (fun m => infoOfMatch (RegExp.matched m)))|].
  exact (StronglySorted_nth (scan_sorted regex inputText 0 0) Hij Hi Hj).
Qed.

Lemma records_follow_matches_left_to_right_witness :
  exists infos,
    getTimeTrackerTemplateInfo
      defaultPlugin ("a `tt A-1 10 first`" ++ JS.newline ++ "`tt B-2 20 next`")
    = Some infos
    /\ infos = [ {| id := Some "A-1"; time := Num 10; text := "first" |};
                 {| id := Some "B-2"; time := Num 20; text := "next" |} ].
Proof.
  destruct (@records_follow_matches_left_to_right
              defaultPlugin
              ("a `tt A-1 10 first`" ++ JS.newline ++ "`tt B-2 20 next`")
              defaultRegExp eq_refl)
    as (infos & Hinfos & Hmap & _).
  exists infos. split; [exact Hinfos|].
  rewrite Hmap. vm_compute. reflexivity.
Defined.

(** The positions in the example of C6. *)
Example match_positions_example :
  RegExp.matchAll
    defaultRegExp ("a `tt A-1 10 first`" ++ JS.newline ++ "`tt B-2 20 next`")
  = [ RegExp.mkMatch 2 "`tt A-1 10 first`";
      RegExp.mkMatch 20 "`tt B-2 20 next`" ].
Proof. vm_compute. reflexivity. Qed.

Lemma presetTaskOfLine_fields (line : string) :
  presetTaskOfLine line
  = if hasTwoFields line then Some (taskOfFields line) else None.
Proof.
  unfold presetTaskOfLine, hasTwoFields, taskOfFields.
  destruct (JS.split "___" line) as [|a [|b [|c rest]]]; reflexivity.
Qed.

Lemma filter_defined_map (lines : list string) :
  filter_defined (map presetTaskOfLine lines)
  = map taskOfFields (filter hasTwoFields lines).
Proof.
  induction lines as [|l lines IH]; simpl; [reflexivity|].
  rewrite presetTaskOfLine_fields.
  destruct (hasTwoFields l); simpl; now rewrite IH.
Qed.

Lemma taskOfFields_line (line : string) :
  hasTwoFields line = true ->
  Preset.id (taskOfFields line) ++ "___" ++ Preset.name (taskOfFields line)
  = line.
Proof.
  intros H. rewrite <- (@join_split "___" line) at 3 by discriminate.
  unfold hasTwoFields in H. unfold taskOfFields. cbn [Preset.id Preset.name].
  destruct (JS.split "___" line) as [|a [|b [|c rest]]];
    try discriminate H.
  reflexivity.
Qed.

(** C7. The preset tasks are the lines of the configuration string that
    split at [___] into exactly two fields, as (id, name) pairs in the order
    of the lines; every other line is dropped.  The configuration
    [A___Alpha], [BAD], [B___Beta] on three lines gives the two tasks
    (A, Alpha) and (B, Beta). *)
Theorem preset_tasks_are_the_two_field_lines :
  forall (this : MyPlugin),
    let lines := JS.split JS.newline (presetTasks (settings this)) in
    JS.join JS.newline lines = presetTasks (settings this)
    /\ getPresetTasks this = map taskOfFields (filter hasTwoFields lines)
    /\ (forall t,
           In t (getPresetTasks this) ->
           In (Preset.id t ++ "___" ++ Preset.name t) lines)
    /\ getPresetTasks
         {| settings :=
              {| regexp := "`tt .*`";
                 presetTasks :=
                   "A___Alpha" ++ JS.newline ++ "BAD" ++ JS.newline
                   ++ "B___Beta";
                 maxTimeInMinutes := Num 480 |} |}
       = [ {| Preset.id := "A"; Preset.name := "Alpha" |};
           {| Preset.id := "B"; Preset.name := "Beta" |} ].
Proof.
  intros this lines.
  assert (Heq : getPresetTasks this
                = map taskOfFields (filter hasTwoFields lines))
    by apply filter_defined_map.
  split; [apply join_split; discriminate|].
  split; [exact Heq|]. split; [|vm_compute; reflexivity].
  intros t Ht. rewrite Heq in Ht. apply in_map_iff in Ht.
  destruct Ht as (l & <- & Hl). apply filter_In in Hl.
  destruct Hl as [Hin Htwo]. now rewrite taskOfFields_line.
Qed.

Lemma preset_tasks_are_the_two_field_lines_witness :
  In ("B" ++ "___" ++ "Beta")
     (JS.split JS.newline
               ("A___Alpha" ++ JS.newline ++ "BAD" ++ JS.newline ++ "B___Beta")).
Proof.
  apply (proj1 (proj2 (proj2 (preset_tasks_are_the_two_field_lines
           {| settings :=
                {| regexp := "`tt .*`";
                   presetTasks :=
                     "A___Alpha" ++ JS.newline ++ "BAD" ++ JS.newline
                     ++ "B___Beta";
                   maxTimeInMinutes := Num 480 |} |})))
           {| Preset.id := "B"; Preset.name := "Beta" |}).
  vm_compute. right. left. reflexivity.
Defined.

(** C8, as the specification states it, fails: the minutes token [-30]
    gives a record with minutes -30. *)
Lemma negative_minutes_counterexample :
  ~ (forall infos r,
        getTimeTrackerTemplateInfo defaultPlugin "`tt ABC-1 -30 late`"
        = Some infos ->
        In r infos ->
        exists z, time r = Num z /\ (0 <= z)%Z).
Proof.
  intros H.
  destruct (H [ {| id := Some "ABC-1"; time := Num (-30); text := "late" |} ]
              {| id := Some "ABC-1"; time := Num (-30); text := "late" |})
    as (z & Hz & Hpos).
  - vm_compute. reflexivity.
  - left. reflexivity.
  - injection Hz as <-. lia.
Qed.

(** C8, amended.  The minutes of every record are never [NaN]: they are
    the number [parseInt] reads in the third token of the match (rounded to
    a double, infinite beyond the doubles), and 0 when it reads none.  They
    are negative only when that token, behind its leading white space,
    starts with a minus sign. *)
Theorem minutes_are_never_NaN_negative_only_by_sign :
  forall (this : MyPlugin) (inputText : string) (regex : RegExp.Disjunction)
         (infos : list TimeTrackerTemplateInfo) (r : TimeTrackerTemplateInfo),
    RegExp.create (regexp (settings this)) = Some regex ->
    getTimeTrackerTemplateInfo this inputText = Some infos ->
    In r infos ->
    exists v,
      In v (collection regex inputText)
      /\ r = infoOfMatch v
      /\ time r <> NaN
      /\ (parseInt (JS.get (JS.split " " v) 2) = NaN -> time r = Num 0)
      /\ (parseInt (JS.get (JS.split " " v) 2) <> NaN ->
          time r = parseInt (JS.get (JS.split " " v) 2))
      /\ (negative (time r) = true ->
          exists token rest,
            JS.get (JS.split " " v) 2 = Some token
            /\ ParseInt.trimStart token = String "-" rest).
Proof.
  intros this inputText regex infos r Hre Hinfos Hr.
  rewrite (getTimeTrackerTemplateInfo_created _ _ Hre) in Hinfos.
  injection Hinfos as <-. apply in_map_iff in Hr.
  destruct Hr as (v & <- & Hv).
  exists v.
  split; [exact Hv|]. split; [reflexivity|].
  split; [apply infoOfMatch_not_NaN|].
  rewrite infoOfMatch_time.
  destruct (JS.get (JS.split " " v) 2) as [token|] eqn:Etok.
  - unfold parseInt, value_toString.
    destruct (ParseInt.parseIntString token) as [n| |s] eqn:En.
    + split; [discriminate|]. split; [reflexivity|].
      intros Hneg. exists token. rewrite <- En in Hneg.
      destruct (parseIntString_negative _ Hneg) as [rest Hrest].
      now exists rest.
    + split; [reflexivity|]. split; [congruence|]. discriminate.
    + split; [discriminate|]. split; [reflexivity|].
      intros Hneg. exists token. rewrite <- En in Hneg.
      destruct (parseIntString_negative _ Hneg) as [rest Hrest].
      now exists rest.
  - rewrite parseInt_undefined.
    split; [reflexivity|]. split; [congruence|]. discriminate.
Qed.

Lemma minutes_are_never_NaN_negative_only_by_sign_witness :
  exists v,
    In v (collection defaultRegExp "`tt ABC-1 -30 late`")
    /\ {| id := Some "ABC-1"; time := Num (-30); text := "late" |}
       = infoOfMatch v
    /\ exists token rest,
         JS.get (JS.split " " v) 2 = Some token
         /\ ParseInt.trimStart token = String "-" rest.
Proof.
  destruct (@minutes_are_never_NaN_negative_only_by_sign
              defaultPlugin "`tt ABC-1 -30 late`" defaultRegExp
              [ {| id := Some "ABC-1"; time := Num (-30); text := "late" |} ]
              {| id := Some "ABC-1"; time := Num (-30); text := "late" |}
              eq_refl eq_refl (or_introl eq_refl))
    as (v & Hv & Hr & _ & _ & _ & Hneg).
  exists v. split; [exact Hv|]. split; [exact Hr|].
  apply Hneg. reflexivity.
Defined.

(** The minutes of a token of 310 digits are infinite. *)
Example infinite_minutes_example :
  exists infos,
    getTimeTrackerTemplateInfo
      defaultPlugin
      ("`tt A-1 1" ++ String.concat "" (repeat "0000000000" 31) ++ " x`")
    = Some infos
    /\ map time infos = [Infinity false].
Proof. eexists. split; vm_compute; reflexivity. Qed.

(** C9, as the specification states it, fails: the match [`tt x`] has two
    tokens, and extraction gives a record for it. *)
Lemma short_match_counterexample :
  ~ (forall v,
        In v (collection defaultRegExp "`tt x`") ->
        List.length (JS.split " " v) < 3 ->
        getTimeTrackerTemplateInfo defaultPlugin "`tt x`" = Some []).
Proof.
  intros H. specialize (H "`tt x`").
  assert (Hin : In "`tt x`" (collection defaultRegExp "`tt x`"))
    by (vm_compute; left; reflexivity).
  assert (Hlen : List.length (JS.split " " "`tt x`") < 3)
    by (vm_compute; lia).
  specialize (H Hin Hlen). vm_compute in H. discriminate H.
Qed.

(** What extraction gives for matches of fewer than three tokens. *)
Example short_match_examples :
  getTimeTrackerTemplateInfo defaultPlugin "`tt x`"
  = Some [ {| id := Some "x`"; time := Num 0; text := "" |} ]
  /\ getTimeTrackerTemplateInfo
       {| settings := {| regexp := "tt"; presetTasks := "";
                         maxTimeInMinutes := Num 480 |} |} "tt"
     = Some [ {| id := None; time := Num 0; text := "" |} ].
Proof. split; vm_compute; reflexivity. Qed.

(** C9, amended.  Extraction gives the empty sequence when the pattern has
    no match in the text.  It does not when a match splits into fewer than
    three tokens: such a match has a record as well, whose id is the second
    token, or [undefined] when there is none, whose minutes are 0 and whose
    description is empty. *)
Theorem short_matches_still_give_records :
  forall (this : MyPlugin) (inputText : string) (regex : RegExp.Disjunction),
    RegExp.create (regexp (settings this)) = Some regex ->
    (RegExp.matchAll regex inputText = [] ->
     getTimeTrackerTemplateInfo this inputText = Some [])
    /\ (forall v : string,
          In v (collection regex inputText) ->
          List.length (JS.split " " v) < 3 ->
          exists infos,
            getTimeTrackerTemplateInfo this inputText = Some infos
            /\ infos <> []
            /\ In {| id := JS.get (JS.split " " v) 1;
                     time := Num 0; text := "" |} infos).
Proof.
  intros this inputText regex Hre.
  rewrite (getTimeTrackerTemplateInfo_created _ _ Hre). split.
  - intros Hnone. rewrite collection_matched, Hnone. reflexivity.
  - intros v Hv Hlen.
    exists (map infoOfMatch (collection regex inputText)).
    assert (Hrec : In {| id := JS.get (JS.split " " v) 1;
                         time := Num 0; text := "" |}
                      (map infoOfMatch (collection regex inputText))).
    { apply in_map_iff. exists v. split; [|exact Hv].
      pose proof (infoOfMatch_time_short v Hlen) as Ht.
      pose proof (infoOfMatch_text_short v ltac:(lia)) as Hx.
      destruct (infoOfMatch v) as [i t x] eqn:E.
      cbn [time text] in Ht, Hx. subst t x.
      f_equal. unfold infoOfMatch in E. now injection E. }
    split; [reflexivity|]. split; [|exact Hrec].
    intros H. rewrite H in Hrec. contradiction.
Qed.

Lemma short_matches_still_give_records_witness :
  (RegExp.matchAll defaultRegExp "`tt x`" = [] ->
   getTimeTrackerTemplateInfo defaultPlugin "`tt x`" = Some [])
  /\ exists infos,
       getTimeTrackerTemplateInfo defaultPlugin "`tt x`" = Some infos
       /\ infos <> []
       /\ In {| id := Some "x`"; time := Num 0; text := "" |} infos.
Proof.
  destruct (@short_matches_still_give_records
              defaultPlugin "`tt x`" defaultRegExp eq_refl)
    as [Hnone Hshort].
  split; [exact Hnone|].
  apply (Hshort "`tt x`").
  - vm_compute. left. reflexivity.
  - vm_compute. lia.
Defined.

(** C10. A match of exactly three tokens (marker, id, minutes) gives a
    record, and its description is the empty string: no token is left to
    join, and [substring(0, -1)] of the empty string is the empty string. *)
Theorem three_tokens_give_empty_description :
  forall (this : MyPlugin) (inputText : string) (regex : RegExp.Disjunction)
         (v : string),
    RegExp.create (regexp (settings this)) = Some regex ->
    In v (collection regex inputText) ->
    List.length (JS.split " " v) = 3 ->
    exists infos r marker token1 token2,
      getTimeTrackerTemplateInfo this inputText = Some infos
      /\ In r infos
      /\ r = infoOfMatch v
      /\ JS.split " " v = [marker; token1; token2]
      /\ id r = Some token1
      /\ JS.join " " (JS.slice (JS.split " " v) 3
                               (List.length (JS.split " " v))) = ""
      /\ JS.substring "" 0 (Z.of_nat (String.length "") - 1) = ""
      /\ text r = "".
Proof.
  intros this inputText regex v Hre Hv Hlen.
  destruct (JS.split " " v) as [|marker [|token1 [|token2 [|x rest]]]] eqn:E;
    try discriminate Hlen.
  exists (map infoOfMatch (collection regex inputText)), (infoOfMatch v),
         marker, token1, token2.
  split; [now apply getTimeTrackerTemplateInfo_created|].
  split; [now apply in_map|].
  split; [reflexivity|]. split; [reflexivity|].
  split; [unfold infoOfMatch; cbn [id]; now rewrite E|].
  split; [reflexivity|]. split; [reflexivity|].
  apply infoOfMatch_text_short. rewrite E. simpl. lia.
Qed.

Lemma three_tokens_give_empty_description_witness :
  exists infos r,
    getTimeTrackerTemplateInfo defaultPlugin "`tt ABC-1 30`" = Some infos
    /\ In r infos
    /\ id r = Some "ABC-1"
    /\ text r = "".
Proof.
  destruct (@three_tokens_give_empty_description
              defaultPlugin "`tt ABC-1 30`" defaultRegExp "`tt ABC-1 30`"
              eq_refl)
    as (infos & r & marker & token1 & token2
        & Hinfos & Hin & Hr & Hsplit & Hid & _ & _ & Htext).
  - vm_compute. left. reflexivity.
  - vm_compute. reflexivity.
  - exists infos, r. split; [exact Hinfos|]. split; [exact Hin|].
    split; [|exact Htext].
    rewrite Hid. vm_compute in Hsplit. now injection Hsplit as _ <- _.
Defined.

(** The example of C10, evaluated. *)
Example three_tokens_example :
  getTimeTrackerTemplateInfo defaultPlugin "`tt ABC-1 30`"
  = Some [ {| id := Some "ABC-1"; time := Num 30; text := "" |} ].
Proof. vm_compute. reflexivity. Qed.

(* ================================================================= *)
(** ** The settings tab: the maximum time read back *)

Section MaxTimeField.

Import ParseInt.

Lemma digits_of_numeral (d : Decimal.uint) :
  forall a : Z,
    digits 10 (Some a) (DecimalString.NilEmpty.string_of_uint d)
    = Some (uint_value d a).
Proof.
  induction d; intros a; cbn [DecimalString.NilEmpty.string_of_uint uint_value];
    [reflexivity | ..];
    cbn [digits];
    match goal with
    | |- context [digitValue 10 ?c] =>
        let v := eval vm_compute in (digitValue 10 c) in
        change (digitValue 10 c) with v
    end;
    cbv iota; apply IHd.
Qed.

Lemma of_uint_acc_value (d : Decimal.uint) :
  forall acc : positive,
    Z.pos (Pos.of_uint_acc d acc) = uint_value d (Z.pos acc).
Proof.
  induction d; intros acc; cbn [Pos.of_uint_acc uint_value];
    [reflexivity | ..];
    rewrite IHd; f_equal; lia.
Qed.

Lemma of_uint_value (d : Decimal.uint) :
  Z.of_N (Pos.of_uint d) = uint_value d 0.
Proof.
  induction d; cbn [Pos.of_uint uint_value]; [reflexivity | exact IHd | ..];
    cbn [Z.of_N]; rewrite of_uint_acc_value; reflexivity.
Qed.

Lemma radixPrefix_zero_numeral (d : Decimal.uint) :
  radixPrefix (String "0" (DecimalString.NilEmpty.string_of_uint d))
  = (10%Z, String "0" (DecimalString.NilEmpty.string_of_uint d)).
Proof. destruct d; reflexivity. Qed.

(** Reading a numeral that is not empty gives its value. *)
Lemma parseIntString_numeral (d : Decimal.uint) :
  d <> Decimal.Nil ->
  parseIntString (DecimalString.NilEmpty.string_of_uint d)
  = number_of_integer (uint_value d 0)
  /\ parseIntString (String "-" (DecimalString.NilEmpty.string_of_uint d))
     = number_of_integer (- uint_value d 0).
Proof.
  intros Hd. unfold parseIntString.
  destruct d as [|d|d|d|d|d|d|d|d|d|d]; [congruence | ..];
    match goal with
    | |- context [uint_value ?D 0%Z] =>
        remember (uint_value D 0%Z) as v eqn:Ev; simpl in Ev
    end;
    cbn [DecimalString.NilEmpty.string_of_uint];
    simpl trimStart; simpl sign; cbv iota;
    rewrite ?radixPrefix_zero_numeral; simpl radixPrefix; cbv iota;
    cbn [digits];
    match goal with
    | |- context [digitValue 10 ?c] =>
        let v := eval vm_compute in (digitValue 10 c) in
        change (digitValue 10 c) with v
    end;
    cbv iota; rewrite digits_of_numeral; rewrite <- Ev;
    split; f_equal; lia.
Qed.

(** [parseInt] reads the text of a number back as that number, for the
    integers that a number holds exactly and for [NaN]. *)
Lemma parseInt_number_toString (n : number) :
  safeInteger n -> parseInt (Some (number_toString n)) = n.
Proof.
  destruct n as [z| |s]; [|reflexivity|contradiction].
  intros Hz. cbn [safeInteger] in Hz.
  assert (Habs : (Z.abs z < 2 ^ 53)%Z) by lia.
  unfold parseInt, value_toString, number_toString.
  rewrite (proj2 (Z.ltb_lt _ _) Habs).
  rewrite <- (number_of_integer_exact z Habs). clear Hz Habs.
  destruct z as [|p|p]; [reflexivity | |];
    cbn [Z.to_int DecimalString.NilZero.string_of_int];
    pose proof (DecimalPos.Unsigned.to_uint_nonnil p) as Hp;
    pose proof (DecimalPos.Unsigned.of_to p) as Hof;
    assert (Hv : uint_value (Pos.to_uint p) 0 = Z.pos p)
      by (rewrite <- of_uint_value, Hof; reflexivity);
    destruct (parseIntString_numeral Hp) as [H1 H2];
    unfold DecimalString.NilZero.string_of_uint;
    destruct (Pos.to_uint p) eqn:E; try congruence;
    rewrite <- E in *; rewrite ?H1, ?H2, Hv; reflexivity.
Qed.

(** X1. The field of the maximum time is filled with the text of the
    stored number; a change event that hands this text back leaves the
    settings as they are, for every integer a number holds exactly and for
    [NaN]. *)
Theorem max_time_field_reads_back :
  forall s : MyPluginSettings,
    safeInteger (maxTimeInMinutes s) ->
    onMaxTimeChange (maxTimeFieldValue s) s = s.
Proof.
  intros s Hs. unfold onMaxTimeChange, maxTimeFieldValue.
  rewrite parseInt_number_toString by exact Hs. now destruct s.
Qed.

Lemma max_time_field_reads_back_witness :
  onMaxTimeChange (maxTimeFieldValue DEFAULT_SETTINGS) DEFAULT_SETTINGS
  = DEFAULT_SETTINGS.
Proof.
  apply max_time_field_reads_back. simpl. lia.
Defined.

(** X2. A text in the field of the maximum time that [parseInt] cannot read
    is stored as [NaN]; the records and their sum stay as they are, and the
    status bar then never takes its short form: for every document it
    shows the sum followed by [M: 'NaN'. D: 'NaN']. *)
Theorem unreadable_max_time_shows_NaN :
  forall (plugin : MyPlugin) (value : string) (el : StatusBarItem)
         (inputText : string) (regex : RegExp.Disjunction),
    RegExp.create (regexp (settings plugin)) = Some regex ->
    parseInt (Some value) = NaN ->
    let changed := {| settings := onMaxTimeChange value (settings plugin) |} in
    exists infos sum,
      getTimeTrackerTemplateInfo changed inputText = Some infos
      /\ getTimeTrackerTemplateInfo plugin inputText = Some infos
      /\ calculateMinutes changed inputText = Some sum
      /\ calculateMinutes plugin inputText = Some sum
      /\ setMinutesTuStatusBar changed el inputText
         = Some {| shown :=
                     "Minutes on file: '" ++ number_toString sum
                     ++ "'. M: 'NaN'. D: 'NaN'" |}.
Proof.
  intros plugin value el inputText regex Hre Hnan changed.
  exists (map infoOfMatch (collection regex inputText)).
  exists (sumOfTimes (map infoOfMatch (collection regex inputText))).
  assert (Hc : getTimeTrackerTemplateInfo changed inputText
               = Some (map infoOfMatch (collection regex inputText)))
    by (apply getTimeTrackerTemplateInfo_created; exact Hre).
  assert (Hp : getTimeTrackerTemplateInfo plugin inputText
               = Some (map infoOfMatch (collection regex inputText)))
    by now apply getTimeTrackerTemplateInfo_created.
  split; [exact Hc|]. split; [exact Hp|].
  split; [unfold calculateMinutes; now rewrite Hc|].
  split; [unfold calculateMinutes; now rewrite Hp|].
  unfold setMinutesTuStatusBar, calculateMinutes. rewrite Hc.
  cbn [settings changed onMaxTimeChange maxTimeInMinutes]. rewrite Hnan.
  unfold setText, statusText.
  now destruct (sumOfTimes (map infoOfMatch (collection regex inputText)))
    as [z| |s].
Qed.

Lemma unreadable_max_time_shows_NaN_witness :
  setMinutesTuStatusBar
    {| settings := onMaxTimeChange "eight hours" DEFAULT_SETTINGS |}
    {| shown := "" |} "`tt ABC-1 30 did work`"
  = Some {| shown := "Minutes on file: '30'. M: 'NaN'. D: 'NaN'" |}.
Proof.
  destruct (@unreadable_max_time_shows_NaN
              defaultPlugin "eight hours" {| shown := "" |}
              "`tt ABC-1 30 did work`" defaultRegExp eq_refl eq_refl)
    as (infos & sum & _ & _ & H1 & _ & H3).
  cbv zeta in H1, H3. cbn [settings defaultPlugin] in H1, H3.
  rewrite H3. vm_compute in H1. injection H1 as <-. reflexivity.
Defined.

End MaxTimeField.

(* ================================================================= *)
(** ** The pieces of a split *)

Section PieceFacts.

Lemma occurs_append (c : ascii) (a b : string) :
  occurs c (a ++ b) = occurs c a || occurs c b.
Proof.
  induction a as [|x a IH]; simpl; [reflexivity|].
  now rewrite IH, orb_assoc.
Qed.

Lemma occurs_contains (c : ascii) (s : string) :
  occurs c s = true -> contains (String c "") s.
Proof.
  induction s as [|x s IH]; simpl; [discriminate|].
  destruct (Ascii.eqb x c) eqn:E; simpl.
  - intros _. apply Ascii.eqb_eq in E. subst x. now exists "", s.
  - intros H. destruct (IH H) as (p & q & ->). now exists (String x p), q.
Qed.

Lemma contains_occurs (c : ascii) (s : string) :
  contains (String c "") s -> occurs c s = true.
Proof.
  intros (p & q & ->). rewrite occurs_append. simpl.
  rewrite Ascii.eqb_refl. simpl. apply orb_true_r.
Qed.

Lemma not_contains_empty (sep : string) : sep <> "" -> ~ contains sep "".
Proof.
  intros Hsep (p & q & H). destruct p; [|discriminate].
  destruct sep; [congruence | discriminate].
Qed.

Lemma concat_head (sep p : string) (ps : list string) :
  exists t, String.concat sep (p :: ps) = p ++ t.
Proof.
  destruct ps as [|p' ps]; simpl.
  - exists "". now rewrite append_empty_r.
  - now exists (sep ++ String.concat sep (p' :: ps)).
Qed.

(** No piece of a split holds the separator. *)
Lemma split_from_no_separator (sep : string) :
  sep <> "" ->
  forall (s : string) (skip : nat),
    skip <= String.length s ->
    Forall (fun p => ~ contains sep p) (JS.split_from sep skip s).
Proof.
  intros Hsep. induction s as [|c s IH]; intros skip Hle.
  - simpl. constructor; [now apply not_contains_empty | constructor].
  - destruct skip as [|k]; cbn [JS.split_from].
    2:{ apply IH. simpl in Hle. lia. }
    destruct (JS.startsWith sep (String c s)) eqn:E.
    + constructor; [now apply not_contains_empty|].
      apply IH. apply startsWith_true in E. destruct E as [t E].
      destruct sep as [|a sep]; [congruence|].
      simpl in E. injection E as _ ->. simpl. rewrite length_append. lia.
    + pose proof (IH 0 (Nat.le_0_l _)) as H0.
      pose proof (@join_split_from sep Hsep s 0 (Nat.le_0_l _)) as Hj.
      destruct (JS.split_from sep 0 s) as [|p ps] eqn:Es.
      { now apply split_from_nonempty in Es. }
      inversion H0 as [|? ? Hp Hps]; subst.
      constructor; [|exact Hps].
      intros (x & y & Hxy). destruct x as [|c' x]; simpl in Hxy.
      * destruct (concat_head sep p ps) as [t Ht].
        unfold JS.join in Hj. simpl drop in Hj. rewrite Ht in Hj.
        assert (Hs : String c s = sep ++ (y ++ t)).
        { rewrite <- Hj. rewrite <- append_assoc. rewrite <- Hxy.
          reflexivity. }
        rewrite Hs, startsWith_append in E. discriminate.
      * injection Hxy as _ ->. apply Hp. now exists x, y.
Qed.

Lemma split_no_separator (sep s p : string) :
  sep <> "" -> In p (JS.split sep s) -> ~ contains sep p.
Proof.
  intros Hsep Hin. unfold JS.split in Hin.
  destruct sep as [|a sep]; [congruence|].
  pose proof (@split_from_no_separator (String a sep) Hsep s 0
                                       (Nat.le_0_l _)) as H.
  rewrite Forall_forall in H. now apply H.
Qed.

(** Every code unit of a piece is one of the string. *)
Lemma occurs_concat (c : ascii) (sep : string) (l : list string) (p : string) :
  In p l -> occurs c p = true -> occurs c (String.concat sep l) = true.
Proof.
  induction l as [|x l IH]; intros Hin Hc; [contradiction|].
  destruct l as [|y l].
  - destruct Hin as [->|[]]. exact Hc.
  - change (String.concat sep (x :: y :: l))
      with (x ++ sep ++ String.concat sep (y :: l)).
    rewrite !occurs_append. destruct Hin as [->|Hin].
    + now rewrite Hc.
    + rewrite (IH Hin Hc). now rewrite !orb_true_r.
Qed.

Lemma occurs_piece (c : ascii) (sep s p : string) :
  sep <> "" -> In p (JS.split sep s) -> occurs c p = true ->
  occurs c s = true.
Proof.
  intros Hsep Hin Hc. rewrite <- (@join_split sep s Hsep).
  now apply occurs_concat with p.
Qed.

Lemma piece_without (c : ascii) (sep s p : string) :
  sep <> "" -> occurs c s = false -> In p (JS.split sep s) ->
  occurs c p = false.
Proof.
  intros Hsep Hs Hin. destruct (occurs c p) eqn:E; [|reflexivity].
  rewrite (@occurs_piece c sep s p Hsep Hin E) in Hs. discriminate.
Qed.

Lemma split_without (c : ascii) (s p : string) :
  In p (JS.split (String c "") s) -> occurs c p = false.
Proof.
  intros Hin. destruct (occurs c p) eqn:E; [|reflexivity].
  apply occurs_contains in E.
  now apply (@split_no_separator (String c "") s p) in E.
Qed.

End PieceFacts.

(** X3. The id of a record holds no space: it is a token of the match, and
    the match is cut at every space. *)
Theorem record_id_has_no_space :
  forall (v i : string),
    id (infoOfMatch v) = Some i -> occurs " "%char i = false.
Proof.
  intros v i H. unfold infoOfMatch in H. cbn [id] in H.
  unfold JS.get in H. apply nth_error_In in H.
  now apply split_without with v.
Qed.

Lemma record_id_has_no_space_witness :
  occurs " "%char "ABC-1" = false.
Proof.
  apply (@record_id_has_no_space "`tt ABC-1 30 did work`" "ABC-1").
  reflexivity.
Defined.

(** X4. Neither the id nor the name of a preset task holds the field
    separator [___] or a line feed. *)
Theorem preset_task_fields_are_clean :
  forall (this : MyPlugin) (t : Preset.PresetTask),
    In t (getPresetTasks this) ->
    ~ contains "___" (Preset.id t)
    /\ ~ contains "___" (Preset.name t)
    /\ occurs JS.LF (Preset.id t) = false
    /\ occurs JS.LF (Preset.name t) = false.
Proof.
  intros this t Ht. unfold getPresetTasks in Ht.
  rewrite filter_defined_map in Ht. apply in_map_iff in Ht.
  destruct Ht as (line & <- & Hline). apply filter_In in Hline.
  destruct Hline as [Hin Htwo].
  assert (Hlf : occurs JS.LF line = false)
    by (apply split_without with (presetTasks (settings this)); exact Hin).
  unfold hasTwoFields in Htwo. unfold taskOfFields.
  cbn [Preset.id Preset.name].
  assert (Hpieces : forall p, In p (JS.split "___" line) ->
                              ~ contains "___" p /\ occurs JS.LF p = false).
  { intros p Hp. split.
    - apply (@split_no_separator "___" line p); [discriminate | exact Hp].
    - apply (@piece_without JS.LF "___" line p);
        [discriminate | exact Hlf | exact Hp]. }
  destruct (JS.split "___" line) as [|a [|b [|c rest]]];
    try discriminate Htwo.
  destruct (Hpieces a (or_introl eq_refl)) as [Ha1 Ha2].
  destruct (Hpieces b (or_intror (or_introl eq_refl))) as [Hb1 Hb2].
  simpl. auto.
Qed.

Lemma preset_task_fields_are_clean_witness :
  ~ contains "___" "A" /\ ~ contains "___" "Alpha"
  /\ occurs JS.LF "A" = false /\ occurs JS.LF "Alpha" = false.
Proof.
  apply (@preset_task_fields_are_clean
           {| settings :=
                {| regexp := "`tt .*`";
                   presetTasks := "A___Alpha" ++ JS.newline ++ "BAD";
                   maxTimeInMinutes := Num 480 |} |}
           {| Preset.id := "A"; Preset.name := "Alpha" |}).
  vm_compute. left. reflexivity.
Defined.

(* ================================================================= *)
(** ** Matching is local to what the pattern can match *)

Section Locality.

Import RegExp.

Variable c : ascii.
Variable b : string.

Lemma match_atom_local (a : Atom) (k1 k2 : Continuation) :
  atom_matches a c = false ->
  agree_before (String c b) k1 k2 ->
  agree_before (String c b)
               (fun s => match_atom a s k1) (fun s => match_atom a s k2).
Proof.
  intros Ha Hk [|x s]; simpl.
  - now rewrite Ha.
  - destruct (atom_matches a x); [apply Hk | reflexivity].
Qed.

Lemma repeat_greedy_local (a : Atom) (k1 k2 : Continuation) :
  atom_matches a c = false ->
  agree_before (String c b) k1 k2 ->
  agree_before (String c b)
               (fun s => repeat_greedy a s k1) (fun s => repeat_greedy a s k2).
Proof.
  intros Ha Hk s. induction s as [|x s IH]; simpl.
  - rewrite Ha. apply (Hk "").
  - destruct (atom_matches a x); [|apply (Hk (String x s))].
    rewrite IH. destruct (repeat_greedy a s k2); [reflexivity|].
    apply (Hk (String x s)).
Qed.

Lemma match_term_local (t : Term) (k1 k2 : Continuation) :
  atom_matches (atom t) c = false ->
  agree_before (String c b) k1 k2 ->
  agree_before (String c b)
               (fun s => match_term t s k1) (fun s => match_term t s k2).
Proof.
  intros Ha Hk s. unfold match_term. destruct (quantifier t).
  - now apply match_atom_local.
  - now apply repeat_greedy_local.
  - apply (match_atom_local _ Ha (repeat_greedy_local _ Ha Hk)).
  - rewrite (match_atom_local _ Ha Hk s).
    destruct (match_atom (atom t) s k2); [reflexivity | apply Hk].
Qed.

Lemma match_alternative_local (ts : Alternative) (k1 k2 : Continuation) :
  forallb (fun t => negb (atom_matches (atom t) c)) ts = true ->
  agree_before (String c b) k1 k2 ->
  agree_before (String c b)
               (fun s => match_alternative ts s k1)
               (fun s => match_alternative ts s k2).
Proof.
  intros Hts Hk. induction ts as [|t ts IH]; simpl in *.
  - exact Hk.
  - apply andb_prop in Hts. destruct Hts as [Ht Hts].
    apply negb_true_iff in Ht.
    exact (match_term_local _ Ht (IH Hts)).
Qed.

Lemma match_disjunction_local (d : Disjunction) (k1 k2 : Continuation) :
  never_matches c d = true ->
  agree_before (String c b) k1 k2 ->
  agree_before (String c b)
               (fun s => match_disjunction d s k1)
               (fun s => match_disjunction d s k2).
Proof.
  intros Hd Hk s. induction d as [|a d IH]; simpl in *; [reflexivity|].
  apply andb_prop in Hd. destruct Hd as [Ha Hd].
  rewrite (match_alternative_local _ Ha Hk s).
  destruct (match_alternative a s k2); [reflexivity | now apply IH].
Qed.

(** In front of a code unit that no atom matches, the pattern matches as
    it does at the end of the input. *)
Lemma match_at_local (re : Disjunction) (s : string) :
  never_matches c re = true ->
  match_at re (s ++ String c b)
  = option_map (fun r => r ++ String c b) (match_at re s).
Proof.
  intros Hre. unfold match_at.
  apply (match_disjunction_local _ Hre). intros s'. reflexivity.
Qed.

Lemma substring_0_append_le (n : nat) (s t : string) :
  n <= String.length s ->
  String.substring 0 n (s ++ t) = String.substring 0 n s.
Proof.
  revert n. induction s as [|x s IH]; intros n Hn; simpl in *.
  - assert (n = 0) as -> by lia. now destruct t.
  - destruct n as [|n]; [reflexivity|]. rewrite IH by lia. reflexivity.
Qed.

Lemma scan_local (re : Disjunction) :
  never_matches c re = true ->
  forall (a : string) (skip idx : nat),
    skip <= String.length a ->
    scan re skip idx (a ++ String c b)
    = (scan re skip idx a
       ++ scan re 0 (idx + String.length a + 1) b)%list.
Proof.
  intros Hre. induction a as [|x a IH]; intros skip idx Hskip.
  - assert (skip = 0) as -> by (simpl in Hskip; lia).
    change ("" ++ String c b) with (String c b).
    cbn [scan]. change (String c b) with ("" ++ String c b) at 1.
    rewrite (@match_at_local re _ Hre).
    replace (idx + String.length "" + 1) with (S idx) by (simpl; lia).
    destruct (match_at re "") as [r|] eqn:E; cbn [option_map];
      [|reflexivity].
    destruct (match_at_splits _ _ E) as [Hr _]. simpl in Hr.
    destruct r; [|discriminate Hr].
    simpl. rewrite Nat.sub_diag. reflexivity.
  - change (String x a ++ String c b) with (String x (a ++ String c b)).
    destruct skip as [|k]; cbn [scan].
    + change (String x (a ++ String c b)) with (String x a ++ String c b).
      rewrite (@match_at_local re _ Hre).
      destruct (match_at re (String x a)) as [r|] eqn:E; cbn [option_map].
      * destruct (match_at_splits _ _ E) as [Hr Hlen].
        assert (Hle : String.length r <= String.length (String x a)).
        { pose proof (f_equal String.length Hr) as Hl.
          rewrite length_append in Hl. lia. }
        rewrite !length_append.
        replace (String.length (String x a) + String.length (String c b)
                 - (String.length r + String.length (String c b)))
          with (String.length (String x a) - String.length r) by lia.
        rewrite substring_0_append_le by lia.
        assert (HL : String.length (String x a) = S (String.length a))
          by reflexivity.
        rewrite IH by lia.
        cbn [app]. do 3 f_equal. lia.
      * assert (HL : String.length (String x a) = S (String.length a))
          by reflexivity.
        rewrite IH by lia. do 2 f_equal. lia.
    + assert (HL : String.length (String x a) = S (String.length a))
        by reflexivity.
      rewrite IH by lia. do 2 f_equal. lia.
Qed.

End Locality.

Section LineByLine.

Import RegExp.

Lemma scan_shift (re : Disjunction) (s : string) :
  forall skip idx, scan re skip idx s = map (shift idx) (scan re skip 0 s).
Proof.
  induction s as [|x s IH]; intros skip idx; destruct skip as [|k];
    cbn [scan].
  - destruct (match_at re ""); reflexivity.
  - reflexivity.
  - destruct (match_at re (String x s)); cbn [map].
    + rewrite (IH _ (S idx)), (IH _ 1), map_map. f_equal.
      apply map_ext. intros m. unfold shift. simpl. f_equal. lia.
    + rewrite (IH _ (S idx)), (IH _ 1), map_map.
      apply map_ext. intros m. unfold shift. simpl. f_equal. lia.
  - rewrite (IH _ (S idx)), (IH _ 1), map_map.
    apply map_ext. intros m. unfold shift. simpl. f_equal. lia.
Qed.

Lemma collection_local (re : Disjunction) (c : ascii) (a b : string) :
  never_matches c re = true ->
  collection re (a ++ String c b)
  = (collection re a ++ collection re b)%list.
Proof.
  intros Hre. rewrite !collection_matched. unfold matchAll.
  rewrite (@scan_local c b re Hre a 0 0 (Nat.le_0_l _)).
  rewrite map_app. f_equal.
  rewrite scan_shift, map_map. reflexivity.
Qed.

Lemma collection_join (re : Disjunction) (lines : list string) :
  never_matches JS.LF re = true ->
  lines <> [] ->
  collection re (JS.join JS.newline lines) = flat_map (collection re) lines.
Proof.
  intros Hre. induction lines as [|l lines IH]; intros Hne; [congruence|].
  destruct lines as [|l' lines].
  - simpl. now rewrite app_nil_r.
  - change (JS.join JS.newline (l :: l' :: lines))
      with (l ++ String JS.LF (JS.join JS.newline (l' :: lines))).
    rewrite (@collection_local re JS.LF _ _ Hre). rewrite IH by discriminate.
    reflexivity.
Qed.

Lemma collection_lines (re : Disjunction) (inputText : string) :
  never_matches JS.LF re = true ->
  collection re inputText
  = flat_map (collection re) (JS.split JS.newline inputText).
Proof.
  intros Hre.
  rewrite <- (@join_split JS.newline inputText) at 1 by discriminate.
  apply collection_join; [exact Hre|].
  rewrite split_newline_unfold. apply split_from_nonempty.
Qed.

End LineByLine.

Section LineTotals.




End LineTotals.



(* ================================================================= *)
(** ** The default pattern *)

Section DefaultPattern.

Import RegExp.

Lemma closing_some (s rest : string) :
  closing s = Some rest -> s = String "`" rest.
Proof.
  unfold closing. destruct s as [|x s]; cbn [match_atom atom_matches];
    [discriminate|].
  destruct (Ascii.eqb "`" x) eqn:E; [|discriminate].
  apply Ascii.eqb_eq in E. subst x. now intros [= ->].
Qed.

Lemma closing_none (x : ascii) (s : string) :
  closing (String x s) = None -> Ascii.eqb x "`" = false.
Proof.
  unfold closing. cbn [match_atom atom_matches]. rewrite (Ascii.eqb_sym x).
  now destruct (Ascii.eqb "`" x).
Qed.

(** Where [.*] and the backtick fail, the line has no backtick. *)
Lemma greedy_none (s : string) :
  repeat_greedy AnyCharacter s closing = None ->
  occurs "`" (firstLine s) = false.
Proof.
  induction s as [|x s IH]; simpl; [reflexivity|].
  destruct (isLineTerminator x); simpl; [reflexivity|].
  destruct (repeat_greedy AnyCharacter s closing); [discriminate|].
  intros H. apply closing_none in H. now rewrite H, IH.
Qed.

(** Where they succeed, they stop behind the last backtick of the line. *)
Lemma greedy_some (s rest : string) :
  repeat_greedy AnyCharacter s closing = Some rest ->
  exists body,
    s = body ++ String "`" rest
    /\ occurs JS.LF body = false
    /\ occurs JS.CR body = false
    /\ occurs "`" (firstLine rest) = false.
Proof.
  revert rest. induction s as [|x s IH]; intros rest; simpl.
  - intros H. discriminate H.
  - destruct (isLineTerminator x) eqn:Ex; simpl.
    + intros H. apply closing_some in H. injection H as -> _.
      discriminate Ex.
    + destruct (repeat_greedy AnyCharacter s closing) as [r|] eqn:E.
      * intros [= ->]. destruct (IH _ eq_refl) as (body & -> & H1 & H2 & H3).
        exists (String x body). simpl.
        unfold isLineTerminator in Ex. apply orb_false_iff in Ex.
        destruct Ex as [E1 E2]. rewrite E1, E2. auto.
      * intros H. apply closing_some in H. injection H as -> ->.
        exists "". repeat split; try reflexivity. now apply greedy_none.
Qed.

(** A match of the default pattern: the marker, a body on one line, the
    last backtick of that line. *)
Lemma default_match (s rest : string) :
  match_at defaultRegExp s = Some rest ->
  exists body,
    s = "`tt " ++ body ++ String "`" rest
    /\ occurs JS.LF body = false
    /\ occurs JS.CR body = false
    /\ occurs "`" (firstLine rest) = false.
Proof.
  unfold match_at, defaultRegExp.
  cbn [match_disjunction match_alternative match_term quantifier atom].
  change (fun s' : string =>
            match_atom (PatternCharacter "`") s' (fun rest0 => Some rest0))
    with closing.
  destruct (match_atom _ s _) as [r|] eqn:E; [|discriminate].
  intros [= ->].
  destruct s as [|c1 [|c2 [|c3 [|c4 s]]]];
    cbn [match_atom atom_matches] in E;
    repeat match type of E with
           | (if ?b then _ else _) = _ =>
               destruct b eqn:?; [|discriminate E]
           | None = Some _ => discriminate E
           end.
  repeat match goal with
         | H : Ascii.eqb _ _ = true |- _ => apply Ascii.eqb_eq in H
         end.
  subst. destruct (greedy_some _ E) as (body & -> & H1 & H2 & H3).
  now exists body.
Qed.

Lemma firstLine_whole (s : string) :
  occurs JS.LF s = false -> occurs JS.CR s = false -> firstLine s = s.
Proof.
  induction s as [|x s IH]; simpl; [reflexivity|].
  intros H1 H2. apply orb_false_iff in H1, H2.
  destruct H1 as [E1 H1], H2 as [E2 H2].
  unfold isLineTerminator. rewrite E1, E2. simpl. now rewrite IH.
Qed.

Lemma occurs_drop (c : ascii) (s : string) (k : nat) :
  occurs c (drop k s) = true -> occurs c s = true.
Proof.
  revert k. induction s as [|x s IH]; intros k; destruct k as [|k]; simpl;
    try tauto.
  intros H. rewrite (IH _ H). apply orb_true_r.
Qed.

(** Without a backtick there is no match. *)
Lemma default_needs_backtick (s : string) :
  occurs "`" s = false ->
  forall skip idx, scan defaultRegExp skip idx s = [].
Proof.
  induction s as [|x s IH]; intros H skip idx; destruct skip as [|k];
    cbn [scan]; try reflexivity.
  - simpl in H. apply orb_false_iff in H. destruct H as [Hx Hs].
    destruct (match_at defaultRegExp (String x s)) as [rest|] eqn:E.
    + destruct (default_match _ E) as (body & Hb & _).
      simpl in Hb. injection Hb as -> _. discriminate Hx.
    + now apply IH.
  - simpl in H. apply orb_false_iff in H. now apply IH.
Qed.

Lemma scan_skip (re : Disjunction) (s : string) :
  forall skip idx,
    skip <= String.length s ->
    scan re skip idx s = scan re 0 (idx + skip) (drop skip s).
Proof.
  induction s as [|x s IH]; intros skip idx H; destruct skip as [|k].
  - now rewrite Nat.add_0_r.
  - simpl in H. lia.
  - now rewrite Nat.add_0_r.
  - cbn [scan drop]. rewrite IH by (simpl in H; lia). f_equal. lia.
Qed.

(** A line holds at most one match of the default pattern. *)
Lemma default_one_per_line (line : string) :
  occurs JS.LF line = false -> occurs JS.CR line = false ->
  forall idx, List.length (scan defaultRegExp 0 idx line) <= 1.
Proof.
  induction line as [|x line IH]; intros Hlf Hcr idx; cbn [scan].
  - destruct (match_at defaultRegExp "") as [rest|] eqn:E; simpl; [|lia].
    destruct (default_match _ E) as (body & Hb & _). discriminate Hb.
  - simpl in Hlf, Hcr. apply orb_false_iff in Hlf, Hcr.
    destruct Hlf as [Hx1 Hlf], Hcr as [Hx2 Hcr].
    destruct (match_at defaultRegExp (String x line)) as [rest|] eqn:E;
      [|now apply IH].
    destruct (default_match _ E) as (body & Hb & _ & _ & Hrest).
    simpl in Hb. injection Hb as -> ->.
    assert (Hno : occurs JS.LF rest = false /\ occurs JS.CR rest = false).
    { cbn [occurs] in Hlf, Hcr. rewrite occurs_append in Hlf, Hcr.
      cbn [occurs] in Hlf, Hcr.
      repeat (apply orb_false_iff in Hlf; destruct Hlf as [? Hlf]).
      repeat (apply orb_false_iff in Hcr; destruct Hcr as [? Hcr]).
      auto. }
    destruct Hno as [Hr1 Hr2].
    rewrite (firstLine_whole _ Hr1 Hr2) in Hrest.
    set (tail := String "t" (String "t" (String " " (body ++ String "`" rest))))
      in *.
    assert (Htail : tail = ("tt " ++ body ++ "`") ++ rest).
    { unfold tail. simpl. now rewrite append_assoc. }
    assert (Hl : String.length tail
                 = String.length ("tt " ++ body ++ "`") + String.length rest)
      by (rewrite Htail; apply length_append).
    assert (Hc : String.length (String "`" tail) = S (String.length tail))
      by reflexivity.
    replace (String.length (String "`" tail) - String.length rest - 1)
      with (String.length ("tt " ++ body ++ "`")) by lia.
    rewrite scan_skip by lia.
    replace (drop (String.length ("tt " ++ body ++ "`")) tail) with rest
      by (rewrite Htail; now rewrite drop_append).
    rewrite default_needs_backtick by exact Hrest. simpl. lia.
Qed.

End DefaultPattern.

Section DefaultRecords.

Import RegExp.

(** Every match reported is a match of the pattern. *)
Lemma scan_are_matches (re : Disjunction) (s : string) :
  forall skip idx m,
    In m (scan re skip idx s) ->
    exists s' rest, match_at re s' = Some rest /\ s' = matched m ++ rest.
Proof.
  induction s as [|x s IH]; intros skip idx m H; destruct skip as [|k];
    cbn [scan] in H.
  - destruct (match_at re "") as [rest|] eqn:E; [|contradiction].
    destruct H as [<-|[]]. exists "", rest. split; [exact E|].
    cbn [matched]. exact (proj1 (match_at_splits _ _ E)).
  - contradiction.
  - destruct (match_at re (String x s)) as [rest|] eqn:E.
    + destruct H as [<-|H]; [|now apply IH in H].
      exists (String x s), rest. split; [exact E|].
      cbn [matched]. exact (proj1 (match_at_splits _ _ E)).
    + now apply IH in H.
  - now apply IH in H.
Qed.

Lemma append_snoc_inj (a b : string) (x y : ascii) :
  a ++ String x "" = b ++ String y "" -> a = b /\ x = y.
Proof.
  revert b. induction a as [|c a IH]; intros [|d b] H; simpl in H.
  - injection H as ->. auto.
  - injection H as _ H. destruct b; discriminate H.
  - injection H as _ H. destruct a; discriminate H.
  - injection H as -> H. destruct (IH _ H) as [-> ->]. auto.
Qed.

(** The matches of the default pattern in a text. *)
Lemma default_collection (inputText v : string) :
  In v (collection defaultRegExp inputText) ->
  exists body,
    v = "`tt " ++ body ++ "`"
    /\ occurs JS.LF body = false
    /\ occurs JS.CR body = false.
Proof.
  intros Hv. rewrite collection_matched in Hv. apply in_map_iff in Hv.
  destruct Hv as (m & <- & Hm). apply scan_are_matches in Hm.
  destruct Hm as (s' & rest & Hmatch & Hs).
  destruct (default_match _ Hmatch) as (body & Hb & H1 & H2 & _).
  exists body. split; [|auto].
  rewrite Hs in Hb.
  replace ("`tt " ++ body ++ String "`" rest)
    with (("`tt " ++ body ++ "`") ++ rest) in Hb
    by (simpl; now rewrite append_assoc).
  revert Hb. generalize ("`tt " ++ body ++ "`"). generalize (matched m).
  clear. intros a. induction a as [|x a IH]; intros [|y b] H; simpl in H.
  - reflexivity.
  - exfalso. apply (f_equal String.length) in H. simpl in H.
    rewrite length_append in H. lia.
  - exfalso. apply (f_equal String.length) in H. simpl in H.
    rewrite length_append in H. lia.
  - injection H as -> H. f_equal. now apply IH.
Qed.

Lemma startsWith_char (c x : ascii) (s : string) :
  JS.startsWith (String c "") (String x s) = Ascii.eqb x c.
Proof.
  unfold JS.startsWith. cbn [String.prefix].
  destruct (ascii_dec c x) as [<-|Hne].
  - rewrite Ascii.eqb_refl. now destruct s.
  - symmetry. apply Ascii.eqb_neq. congruence.
Qed.

(** The first token of a match of the default pattern is the marker. *)
Lemma split_marker (w : string) :
  JS.split " " ("`tt " ++ w) = "`tt" :: JS.split " " w.
Proof.
  unfold JS.split. simpl append. cbn [JS.split_from].
  rewrite !startsWith_char. simpl Ascii.eqb. cbv iota.
  reflexivity.
Qed.

Lemma length_flat_map_le (A B : Type) (f : A -> list B) (l : list A) :
  (forall a, In a l -> List.length (f a) <= 1) ->
  List.length (flat_map f l) <= List.length l.
Proof.
  induction l as [|a l IH]; intros H; simpl; [lia|].
  rewrite length_app.
  specialize (H a (or_introl eq_refl)) as Ha.
  assert (List.length (flat_map f l) <= List.length l)
    by (apply IH; intros; apply H; now right).
  lia.
Qed.

End DefaultRecords.

(** X6. With the default pattern every record comes from a match that
    starts with the marker [`tt] and a space, ends with a backtick and
    holds no line terminator; its first token is the marker, and its id is
    never [undefined]. *)
Theorem default_records_have_an_id :
  forall (inputText : string) (infos : list TimeTrackerTemplateInfo)
         (r : TimeTrackerTemplateInfo),
    getTimeTrackerTemplateInfo defaultPlugin inputText = Some infos ->
    In r infos ->
    exists v body i,
      In v (collection defaultRegExp inputText)
      /\ r = infoOfMatch v
      /\ v = "`tt " ++ body ++ "`"
      /\ occurs JS.LF body = false
      /\ occurs JS.CR body = false
      /\ JS.get (JS.split " " v) 0 = Some "`tt"
      /\ id r = Some i.
Proof.
  intros inputText infos r Hinfos Hr.
  rewrite (getTimeTrackerTemplateInfo_created _ _ create_default) in Hinfos.
  injection Hinfos as <-. apply in_map_iff in Hr.
  destruct Hr as (v & <- & Hv).
  destruct (default_collection _ _ Hv) as (body & Hbody & H1 & H2).
  assert (Hsplit : JS.split " " v = "`tt" :: JS.split " " (body ++ "`"))
    by (rewrite Hbody; apply split_marker).
  destruct (JS.split " " (body ++ "`")) as [|i rest] eqn:E.
  { unfold JS.split in E. now apply split_from_nonempty in E. }
  exists v, body, i.
  split; [exact Hv|]. split; [reflexivity|]. split; [exact Hbody|].
  split; [exact H1|]. split; [exact H2|].
  split; [now rewrite Hsplit|].
  unfold infoOfMatch. cbn [id]. now rewrite Hsplit.
Qed.

Lemma default_records_have_an_id_witness :
  exists v body i,
    In v (collection defaultRegExp "`tt x`")
    /\ {| id := Some "x`"; time := Num 0; text := "" |} = infoOfMatch v
    /\ v = "`tt " ++ body ++ "`"
    /\ occurs JS.LF body = false
    /\ occurs JS.CR body = false
    /\ JS.get (JS.split " " v) 0 = Some "`tt"
    /\ Some "x`" = Some i.
Proof.
  apply (@default_records_have_an_id
           "`tt x`" [ {| id := Some "x`"; time := Num 0; text := "" |} ]
           {| id := Some "x`"; time := Num 0; text := "" |}).
  - vm_compute. reflexivity.
  - left. reflexivity.
Defined.

(** X7. With the default pattern a line gives at most one record, because
    [.*] runs to the last backtick of the line: in a text of code units
    below 256 (so without U+2028 and U+2029) and without carriage returns
    there are no more records than lines. *)
Theorem default_one_record_per_line :
  forall (inputText : string) (infos : list TimeTrackerTemplateInfo),
    occurs JS.CR inputText = false ->
    getTimeTrackerTemplateInfo defaultPlugin inputText = Some infos ->
    List.length infos <= List.length (JS.split JS.newline inputText).
Proof.
  intros inputText infos Hcr Hinfos.
  rewrite (getTimeTrackerTemplateInfo_created _ _ create_default) in Hinfos.
  injection Hinfos as <-. rewrite length_map.
  rewrite (@collection_lines defaultRegExp inputText eq_refl).
  apply length_flat_map_le. intros line Hline.
  rewrite collection_matched, length_map.
  apply default_one_per_line.
  - now apply split_without with inputText.
  - apply (@piece_without JS.CR JS.newline inputText line);
      [discriminate | exact Hcr | exact Hline].
Qed.

Lemma default_one_record_per_line_witness :
  getTimeTrackerTemplateInfo defaultPlugin "`tt A-1 10 first` `tt B-2 20 next`"
  = Some [ {| id := Some "A-1"; time := Num 10;
              text := "first` `tt B-2 20 next" |} ]
  /\ 1 <= List.length
            (JS.split JS.newline "`tt A-1 10 first` `tt B-2 20 next`").
Proof.
  split; [vm_compute; reflexivity|].
  apply (@default_one_record_per_line
           "`tt A-1 10 first` `tt B-2 20 next`"
           [ {| id := Some "A-1"; time := Num 10;
                text := "first` `tt B-2 20 next" |} ]).
  - reflexivity.
  - vm_compute. reflexivity.
Defined.

(* ================================================================= *)
(** ** What a record keeps of its match *)

Section GivingBack.

Lemma string_snoc (s : string) :
  s <> "" -> exists t c, s = t ++ String c "".
Proof.
  induction s as [|x s IH]; intros H; [congruence|].
  destruct s as [|y s].
  - now exists "", x.
  - destruct IH as (t & c & Ht); [discriminate|].
    exists (String x t), c. simpl. now rewrite <- Ht.
Qed.

(** [substring(0, length - 1)] drops the last code unit. *)
Lemma substring_strip_last (t : string) (c : ascii) :
  JS.substring (t ++ String c "") 0
               (Z.of_nat (String.length (t ++ String c "")) - 1)
  = t.
Proof.
  unfold JS.substring, JS.clamp. rewrite length_append.
  cbn [String.length].
  replace (Z.to_nat (Z.min (Z.max 0 0)
                           (Z.of_nat (String.length t + 1))))
    with 0 by lia.
  replace (Z.to_nat (Z.min (Z.max (Z.of_nat (String.length t + 1) - 1) 0)
                           (Z.of_nat (String.length t + 1))))
    with (String.length t) by lia.
  rewrite Nat.min_0_l, Nat.max_0_l, Nat.sub_0_r.
  apply substring_0_append.
Qed.

Lemma slice_rest (A : Type) (a b c : A) (rest : list A) :
  JS.slice (a :: b :: c :: rest) 3 (List.length (a :: b :: c :: rest)) = rest.
Proof.
  unfold JS.slice. simpl List.length. simpl skipn.
  replace (S (S (S (List.length rest))) - 3) with (List.length rest) by lia.
  apply firstn_all.
Qed.

Lemma tokens_give_back (v marker i m : string) (rest : list string) :
  JS.split " " v = marker :: i :: m :: rest ->
  rest <> [] ->
  v = marker ++ " " ++ i ++ " " ++ m ++ " " ++ JS.join " " rest
  /\ text (infoOfMatch v)
     = JS.substring (JS.join " " rest) 0
                    (Z.of_nat (String.length (JS.join " " rest)) - 1).
Proof.
  intros Hsplit Hrest. split.
  - rewrite <- (@join_split " " v) at 1 by discriminate.
    rewrite Hsplit. unfold JS.join.
    destruct rest as [|r rest]; [congruence | reflexivity].
  - unfold infoOfMatch. cbn [text]. rewrite Hsplit.
    now rewrite slice_rest.
Qed.

End GivingBack.

(** X8. A match of at least four tokens whose description part is not
    empty is given back by its record but for its last code unit: it is the
    first token, the id, the minutes token and the description, joined by
    single spaces, and one more code unit. *)
Theorem record_gives_the_match_back :
  forall (v marker i m : string) (rest : list string),
    JS.split " " v = marker :: i :: m :: rest ->
    JS.join " " rest <> "" ->
    exists last,
      v = marker ++ " " ++ i ++ " " ++ m ++ " "
          ++ text (infoOfMatch v) ++ String last ""
      /\ id (infoOfMatch v) = Some i
      /\ time (infoOfMatch v)
         = match parseInt (Some m) with
           | NaN => Num 0
           | n => n
           end.
Proof.
  intros v marker i m rest Hsplit Hjoin.
  assert (Hrest : rest <> []) by (intros ->; now apply Hjoin).
  destruct (tokens_give_back _ Hsplit Hrest) as [Hv Htext].
  destruct (string_snoc Hjoin) as (t & last & Ht).
  rewrite Ht, substring_strip_last in Htext.
  exists last. split; [now rewrite Htext, <- Ht|].
  split.
  - unfold infoOfMatch. cbn [id]. now rewrite Hsplit.
  - rewrite infoOfMatch_time. now rewrite Hsplit.
Qed.

Lemma record_gives_the_match_back_witness :
  exists last,
    "`tt ABC-1 30 did work`"
    = "`tt" ++ " " ++ "ABC-1" ++ " " ++ "30" ++ " "
      ++ text (infoOfMatch "`tt ABC-1 30 did work`") ++ String last ""
    /\ id (infoOfMatch "`tt ABC-1 30 did work`") = Some "ABC-1"
    /\ time (infoOfMatch "`tt ABC-1 30 did work`")
       = match parseInt (Some "30") with
         | NaN => Num 0
         | n => n
         end.
Proof.
  apply (@record_gives_the_match_back
           "`tt ABC-1 30 did work`" "`tt" "ABC-1" "30" ["did"; "work`"]).
  - reflexivity.
  - discriminate.
Defined.

(** X9. With the default pattern the code unit that is dropped from the
    description is the closing backtick: a match of at least four tokens is
    the marker, the id, the minutes token and the description of its
    record, joined by single spaces, and the closing backtick. *)
Theorem default_record_gives_the_annotation_back :
  forall (inputText v i m : string) (rest : list string),
    In v (collection defaultRegExp inputText) ->
    JS.split " " v = "`tt" :: i :: m :: rest ->
    rest <> [] ->
    v = "`tt " ++ i ++ " " ++ m ++ " " ++ text (infoOfMatch v) ++ "`".
Proof.
  intros inputText v i m rest Hv Hsplit Hrest.
  destruct (default_collection _ _ Hv) as (body & Hbody & _).
  destruct (tokens_give_back _ Hsplit Hrest) as [Hjoin Htext].
  assert (Hb : v = ("`tt " ++ body) ++ String "`" "")
    by (rewrite Hbody; simpl; rewrite ?append_assoc; reflexivity).
  destruct (JS.join " " rest) as [|x t0] eqn:Et.
  - exfalso.
    assert (Hsp : v = ("`tt" ++ " " ++ i ++ " " ++ m) ++ String " " "").
    { rewrite Hjoin.
      repeat first [rewrite append_assoc | progress cbn [append]].
      reflexivity. }
    rewrite Hb in Hsp. apply append_snoc_inj in Hsp.
    destruct Hsp as [_ Hsp]. discriminate Hsp.
  - destruct (@string_snoc (String x t0) ltac:(discriminate))
      as (t & last & Ht).
    rewrite Ht in Hjoin, Htext. rewrite substring_strip_last in Htext.
    assert (Hl : v = ("`tt" ++ " " ++ i ++ " " ++ m ++ " " ++ t)
                     ++ String last "").
    { rewrite Hjoin.
      repeat first [rewrite append_assoc | progress cbn [append]].
      reflexivity. }
    rewrite Hb in Hl. apply append_snoc_inj in Hl.
    destruct Hl as [_ <-].
    rewrite Htext. rewrite Hjoin at 1. reflexivity.
Qed.

Lemma default_record_gives_the_annotation_back_witness :
  "`tt ABC-1 30 did work`"
  = "`tt " ++ "ABC-1" ++ " " ++ "30" ++ " "
    ++ text (infoOfMatch "`tt ABC-1 30 did work`") ++ "`".
Proof.
  apply (@default_record_gives_the_annotation_back
           "x `tt ABC-1 30 did work`" "`tt ABC-1 30 did work`"
           "ABC-1" "30" ["did"; "work`"]).
  - vm_compute. left. reflexivity.
  - reflexivity.
  - discriminate.
Defined.

(* ================================================================= *)
(** ** The handlers *)

Section HandlerFacts.

Lemma numeral_no_line_feed (d : Decimal.uint) :
  occurs JS.LF (DecimalString.NilEmpty.string_of_uint d) = false.
Proof. induction d; simpl; auto. Qed.

Lemma integerString_no_line_feed (z : Z) :
  occurs JS.LF (ToString.integerString z) = false.
Proof.
  unfold ToString.integerString, Z.to_int.
  destruct z as [|p|p]; [reflexivity | |];
    cbn [DecimalString.NilZero.string_of_int];
    unfold DecimalString.NilZero.string_of_uint;
    destruct (Pos.to_uint p) eqn:E; try reflexivity;
    rewrite <- E; cbn [occurs]; rewrite ?numeral_no_line_feed;
    reflexivity.
Qed.

Lemma dropTrailingZeros_occurs (c : ascii) (s : string) :
  occurs c s = false -> occurs c (ToString.dropTrailingZeros s) = false.
Proof.
  induction s as [|x s IH]; intros H; [reflexivity|].
  cbn [occurs] in H. apply orb_false_iff in H. destruct H as [Hx Hs].
  cbn [ToString.dropTrailingZeros]. specialize (IH Hs).
  destruct (ToString.dropTrailingZeros s) as [|y t].
  - destruct (Ascii.eqb x "0"); [reflexivity|].
    cbn [occurs]. now rewrite Hx.
  - cbn [occurs] in *. now rewrite Hx, IH.
Qed.

Lemma exponentString_no_line_feed (w : Z) :
  occurs JS.LF (ToString.exponentString w) = false.
Proof.
  unfold ToString.exponentString. cbv zeta.
  pose proof (dropTrailingZeros_occurs _ _ (integerString_no_line_feed w))
    as H.
  destruct (ToString.dropTrailingZeros (ToString.integerString w))
    as [|d [|d' rest]].
  - apply integerString_no_line_feed.
  - cbn [occurs] in H. apply orb_false_iff in H. destruct H as [Hd _].
    cbn [occurs append]. rewrite Hd, integerString_no_line_feed.
    reflexivity.
  - cbn [occurs] in H. apply orb_false_iff in H. destruct H as [Hd H].
    apply orb_false_iff in H. destruct H as [Hd' Hrest].
    cbn [occurs append]. rewrite Hd, Hd', occurs_append, Hrest.
    cbn [occurs]. rewrite integerString_no_line_feed. reflexivity.
Qed.

Lemma number_toString_no_line_feed (n : number) :
  occurs JS.LF (number_toString n) = false.
Proof.
  destruct n as [z| |[|]]; try reflexivity.
  unfold number_toString.
  destruct (Z.abs z <? 2 ^ 53)%Z; [apply integerString_no_line_feed|].
  rewrite occurs_append. unfold ToString.largeString. cbv zeta.
  assert (Hl : occurs JS.LF
                 (if (ToString.shortest (Z.abs z) <? 10 ^ 21)%Z
                  then ToString.integerString (ToString.shortest (Z.abs z))
                  else ToString.exponentString (ToString.shortest (Z.abs z)))
               = false).
  { destruct (ToString.shortest (Z.abs z) <? 10 ^ 21)%Z;
      [apply integerString_no_line_feed | apply exponentString_no_line_feed]. }
  rewrite Hl. now destruct (z <? 0)%Z.
Qed.

Lemma occurs_substring (c : ascii) (s : string) :
  forall n m, occurs c (String.substring n m s) = true -> occurs c s = true.
Proof.
  induction s as [|x s IH]; intros n m H.
  - destruct n, m; discriminate H.
  - destruct n as [|n]; simpl in H.
    + destruct m as [|m]; [discriminate H|]. simpl in *.
      apply orb_true_iff in H. destruct H as [H|H].
      * now rewrite H.
      * rewrite (IH _ _ H). apply orb_true_r.
    + simpl. rewrite (IH _ _ H). apply orb_true_r.
Qed.

Lemma occurs_concat_inv (c : ascii) (sep : string) (l : list string) :
  occurs c (String.concat sep l) = true ->
  occurs c sep = true \/ exists p, In p l /\ occurs c p = true.
Proof.
  induction l as [|x l IH]; [discriminate|].
  destruct l as [|y l].
  - intros H. right. exists x. split; [now left | exact H].
  - change (String.concat sep (x :: y :: l))
      with (x ++ sep ++ String.concat sep (y :: l)).
    rewrite !occurs_append. intros H.
    apply orb_true_iff in H. destruct H as [H|H].
    + right. exists x. split; [now left | exact H].
    + apply orb_true_iff in H. destruct H as [H|H]; [now left|].
      destruct (IH H) as [Hs|(p & Hp & Hc)]; [now left|].
      right. exists p. split; [now right | exact Hc].
Qed.

Lemma In_slice (A : Type) (l : list A) (a : A) (start stop : nat) :
  In a (JS.slice l start stop) -> In a l.
Proof.
  unfold JS.slice. intros H.
  assert (H' : In a (skipn start l)).
  { rewrite <- (firstn_skipn (stop - start) (skipn start l)).
    apply in_or_app. now left. }
  rewrite <- (firstn_skipn start l). apply in_or_app. now right.
Qed.

(** The template line of a match without line feed has none. *)
Lemma templateLine_no_line_feed (v : string) :
  occurs JS.LF v = false ->
  occurs JS.LF (templateLine (infoOfMatch v)) = false.
Proof.
  intros Hv. unfold templateLine. rewrite !occurs_append.
  assert (Hid : occurs JS.LF (value_toString (id (infoOfMatch v))) = false).
  { unfold infoOfMatch. cbn [id]. unfold JS.get.
    destruct (nth_error (JS.split " " v) 1) as [i|] eqn:E; [|reflexivity].
    apply nth_error_In in E. simpl value_toString.
    apply (@piece_without JS.LF " " v i); [discriminate | exact Hv | exact E]. }
  assert (Htext : occurs JS.LF (text (infoOfMatch v)) = false).
  { unfold infoOfMatch. cbn [text]. unfold JS.substring.
    match goal with
    | |- occurs _ (String.substring ?n ?m ?s) = false =>
        destruct (occurs JS.LF (String.substring n m s)) eqn:E;
          [|reflexivity]
    end.
    apply occurs_substring in E. unfold JS.join in E.
    apply occurs_concat_inv in E.
    destruct E as [E|(p & Hp & Hc)]; [discriminate E|].
    apply In_slice in Hp.
    rewrite (@piece_without JS.LF " " v p) in Hc;
      [discriminate Hc | discriminate | exact Hv | exact Hp]. }
  rewrite Hid, Htext, number_toString_no_line_feed. reflexivity.
Qed.

Lemma default_match_no_line_feed (inputText v : string) :
  In v (collection defaultRegExp inputText) -> occurs JS.LF v = false.
Proof.
  intros Hv. destruct (default_collection _ _ Hv) as (body & -> & H1 & _).
  cbn [append occurs]. rewrite occurs_append, H1. reflexivity.
Qed.

(** The matches and the records of the empty text. *)
Lemma collection_empty (regex : RegExp.Disjunction) (v : string) :
  In v (collection regex "") -> v = "".
Proof.
  rewrite collection_matched. unfold RegExp.matchAll. cbn [RegExp.scan].
  destruct (RegExp.match_at regex "") as [rest|]; simpl; [|tauto].
  intros [<-|[]]. now destruct (0 - String.length rest).
Qed.

Lemma sumOfTimes_zero (infos : list TimeTrackerTemplateInfo) :
  Forall (fun r => time r = Num 0) infos -> sumOfTimes infos = Num 0.
Proof.
  unfold sumOfTimes. induction 1 as [|r infos Hr _ IH]; [reflexivity|].
  cbn [fold_left]. rewrite Hr. exact IH.
Qed.

End HandlerFacts.

(** X10. The click on the status bar opens no modal when there is no text
    or the text is empty.  Otherwise, with the default pattern, it opens a
    modal with the template of the records; the template then has exactly
    one line per record, whatever the annotations hold, and it is the empty
    text when there is no record. *)
Theorem click_shows_one_line_per_record :
  forall (workspace : Workspace) (value : string)
         (infos : list TimeTrackerTemplateInfo),
    activeValue workspace = Some value ->
    getTimeTrackerTemplateInfo defaultPlugin value = Some infos ->
    (value = "" -> onClickEvent defaultPlugin workspace = Some None)
    /\ (value <> "" ->
        exists modal,
          onClickEvent defaultPlugin workspace = Some (Some modal)
          /\ modalText modal = getTimeTrackerTemplate infos
          /\ (infos = [] -> modalText modal = "")
          /\ (infos <> [] ->
              JS.split JS.newline (modalText modal)
              = map templateLine infos)).
Proof.
  intros workspace value infos Hvalue Hinfos. unfold onClickEvent.
  rewrite Hvalue. split.
  - intros ->. reflexivity.
  - intros Hne. unfold truthy.
    destruct (String.eqb value "") eqn:E;
      [apply String.eqb_eq in E; congruence|].
    cbn [negb]. rewrite Hinfos. eexists. split; [reflexivity|].
    cbn [modalText]. split; [reflexivity|]. split; [now intros ->|].
    intros Hinf.
    rewrite (getTimeTrackerTemplateInfo_created _ _ create_default)
      in Hinfos.
    injection Hinfos as <-.
    destruct (collection defaultRegExp value) as [|v vs] eqn:Ec;
      [now contradiction Hinf|].
    assert (Hlf : Forall (fun r => occurs JS.LF (templateLine r) = false)
                         (map infoOfMatch (v :: vs))).
    { apply Forall_forall. intros r Hr. apply in_map_iff in Hr.
      destruct Hr as (w & <- & Hw). apply templateLine_no_line_feed.
      apply default_match_no_line_feed with value. now rewrite Ec. }
    assert (Hgen : forall l : list TimeTrackerTemplateInfo,
               l <> [] ->
               Forall (fun r => occurs JS.LF (templateLine r) = false) l ->
               JS.split JS.newline (getTimeTrackerTemplate l)
               = map templateLine l).
    { induction l as [|r l IHl]; intros Hl Hf; [congruence|].
      inversion Hf as [|? ? Hr Hrest]; subst.
      destruct l as [|r' l].
      - unfold getTimeTrackerTemplate. simpl.
        now apply split_newline_single.
      - change (getTimeTrackerTemplate (r :: r' :: l))
          with (templateLine r ++ JS.newline
                ++ getTimeTrackerTemplate (r' :: l)).
        rewrite split_newline_append by exact Hr.
        rewrite IHl by (discriminate || exact Hrest). reflexivity. }
    apply Hgen; [discriminate | exact Hlf].
Qed.

Lemma click_shows_one_line_per_record_witness :
  exists modal,
    onClickEvent
      defaultPlugin
      {| activeEditor :=
           Some {| editor := Some "`tt A-1 10 first` `tt B-2 20 next`" |} |}
    = Some (Some modal)
    /\ modalText modal = "A-1__10_first` `tt B-2 20 next".
Proof.
  destruct (@click_shows_one_line_per_record
              {| activeEditor :=
                   Some {| editor :=
                             Some "`tt A-1 10 first` `tt B-2 20 next`" |} |}
              "`tt A-1 10 first` `tt B-2 20 next`"
              [ {| id := Some "A-1"; time := Num 10;
                   text := "first` `tt B-2 20 next" |} ]
              eq_refl) as [_ H].
  - vm_compute. reflexivity.
  - destruct H as (modal & H1 & H2 & _); [discriminate|].
    exists modal. split; [exact H1|]. rewrite H2. vm_compute. reflexivity.
Defined.

(** X11. Opening a file changes the status bar only when there is a text
    and it is not empty: on an empty document the bar keeps what it showed
    before.  A change in the editor that leaves the document empty shows a
    sum of 0. *)
Theorem empty_document_on_open_and_on_change :
  forall (plugin : MyPlugin) (regex : RegExp.Disjunction)
         (workspace : Workspace) (statusBarItemEl : StatusBarItem),
    RegExp.create (regexp (settings plugin)) = Some regex ->
    activeValue workspace = None \/ activeValue workspace = Some "" ->
    onFileOpenEvent plugin workspace statusBarItemEl = Some statusBarItemEl
    /\ onEditorChangeEvent plugin (IsMarkdownView "") statusBarItemEl
       = Some (setText statusBarItemEl
                       (statusText (Num 0)
                                   (maxTimeInMinutes (settings plugin)))).
Proof.
  intros plugin regex workspace el Hre Hvalue. split.
  - unfold onFileOpenEvent.
    destruct (activeEditor workspace); [|reflexivity].
    destruct Hvalue as [-> | ->]; reflexivity.
  - unfold onEditorChangeEvent, setMinutesTuStatusBar, calculateMinutes.
    rewrite (getTimeTrackerTemplateInfo_created _ _ Hre).
    rewrite sumOfTimes_zero; [reflexivity|].
    apply Forall_forall. intros r Hr. apply in_map_iff in Hr.
    destruct Hr as (v & <- & Hv). apply collection_empty in Hv. now subst v.
Qed.

Lemma empty_document_on_open_and_on_change_witness :
  onFileOpenEvent defaultPlugin
                  {| activeEditor := Some {| editor := Some "" |} |}
                  {| shown := "Minutes on file: '30'. M: '480'. D: '450'" |}
  = Some {| shown := "Minutes on file: '30'. M: '480'. D: '450'" |}
  /\ onEditorChangeEvent
       defaultPlugin (IsMarkdownView "")
       {| shown := "Minutes on file: '30'. M: '480'. D: '450'" |}
     = Some {| shown := "Minutes on file: '0'. M: '480'. D: '480'" |}.
Proof.
  apply (@empty_document_on_open_and_on_change
           defaultPlugin defaultRegExp
           {| activeEditor := Some {| editor := Some "" |} |}
           {| shown := "Minutes on file: '30'. M: '480'. D: '450'" |}
           eq_refl).
  right. reflexivity.
Defined.

Section EarlierFacts.

Lemma sum_from_NaN (infos : list TimeTrackerTemplateInfo) :
  fold_left (fun accumulator object => number_add accumulator (time object))
            infos NaN
  = NaN.
Proof. induction infos as [|r infos IH]; simpl; [reflexivity | exact IH]. Qed.

(** One [NaN] among the minutes makes the sum [NaN]. *)
Lemma sumOfTimes_NaN (infos : list TimeTrackerTemplateInfo) :
  Exists (fun r => time r = NaN) infos -> sumOfTimes infos = NaN.
Proof.
  unfold sumOfTimes. generalize (Num 0).
  induction infos as [|r infos IH]; intros a H; [inversion H|].
  cbn [fold_left]. inversion H as [? ? Hr|? ? Ht]; subst.
  - rewrite Hr. replace (number_add a NaN) with NaN by now destruct a.
    apply sum_from_NaN.
  - now apply IH.
Qed.

Lemma earlier_created (plugin : Earlier.MyPlugin) (inputText : string)
      (regex : RegExp.Disjunction) :
  RegExp.create (Earlier.regexp (Earlier.settings plugin)) = Some regex ->
  Earlier.getTimeTrackerTemplateInfo plugin inputText
  = Some (map Earlier.infoOfMatch (collection regex inputText)).
Proof.
  intros H. unfold Earlier.getTimeTrackerTemplateInfo. now rewrite H.
Qed.

End EarlierFacts.

(** X12. In the earlier revision one match whose minutes token [parseInt]
    cannot read spoils the sum: where there is such a match the sum is
    [NaN] and the status bar shows [Minutes on file: 'NaN'].  Where there is
    none, the earlier revision gives the records and the sum of the current
    one. *)
Theorem earlier_sum_is_NaN_on_unreadable_minutes :
  forall (earlier : Earlier.MyPlugin) (plugin : MyPlugin)
         (regex : RegExp.Disjunction) (el : StatusBarItem)
         (inputText : string),
    RegExp.create (Earlier.regexp (Earlier.settings earlier)) = Some regex ->
    regexp (settings plugin) = Earlier.regexp (Earlier.settings earlier) ->
    let unreadable :=
      exists v, In v (collection regex inputText)
                /\ parseInt (JS.get (JS.split " " v) 2) = NaN in
    (unreadable ->
     Earlier.calculateMinutes earlier inputText = Some NaN
     /\ Earlier.setMinutesTuStatusBar earlier el inputText
        = Some (setText el "Minutes on file: 'NaN'"))
    /\ (~ unreadable ->
        Earlier.getTimeTrackerTemplateInfo earlier inputText
        = getTimeTrackerTemplateInfo plugin inputText
        /\ Earlier.calculateMinutes earlier inputText
           = calculateMinutes plugin inputText).
Proof.
  intros earlier plugin regex el inputText Hre Hsame unreadable.
  assert (Hre' : RegExp.create (regexp (settings plugin)) = Some regex)
    by now rewrite Hsame.
  split.
  - intros (v & Hv & Hnan).
    assert (Hsum : Earlier.calculateMinutes earlier inputText = Some NaN).
    { unfold Earlier.calculateMinutes. rewrite (earlier_created _ _ Hre).
      f_equal. apply sumOfTimes_NaN.
      apply Exists_exists. exists (Earlier.infoOfMatch v).
      split; [now apply in_map | exact Hnan]. }
    split; [exact Hsum|].
    unfold Earlier.setMinutesTuStatusBar. now rewrite Hsum.
  - intros Hnone.
    assert (Hmap : map Earlier.infoOfMatch (collection regex inputText)
                   = map infoOfMatch (collection regex inputText)).
    { apply map_ext_in. intros v Hv.
      assert (Hp : parseInt (JS.get (JS.split " " v) 2) <> NaN)
        by (intros Hp; apply Hnone; now exists v).
      unfold Earlier.infoOfMatch, infoOfMatch.
      destruct (parseInt (JS.get (JS.split " " v) 2)); try reflexivity.
      congruence. }
    assert (Hinfos : Earlier.getTimeTrackerTemplateInfo earlier inputText
                     = getTimeTrackerTemplateInfo plugin inputText).
    { rewrite (earlier_created _ _ Hre).
      rewrite (getTimeTrackerTemplateInfo_created _ _ Hre').
      now rewrite Hmap. }
    split; [exact Hinfos|].
    unfold Earlier.calculateMinutes, calculateMinutes. now rewrite Hinfos.
Qed.

Lemma earlier_sum_is_NaN_on_unreadable_minutes_witness :
  Earlier.setMinutesTuStatusBar
    {| Earlier.settings := Earlier.DEFAULT_SETTINGS |} {| shown := "" |}
    ("`tt A-1 10 first`" ++ JS.newline ++ "`tt B-2 xx next`")
  = Some {| shown := "Minutes on file: 'NaN'" |}.
Proof.
  apply (proj1 (@earlier_sum_is_NaN_on_unreadable_minutes
           {| Earlier.settings := Earlier.DEFAULT_SETTINGS |}
           defaultPlugin defaultRegExp {| shown := "" |}
           ("`tt A-1 10 first`" ++ JS.newline ++ "`tt B-2 xx next`")
           eq_refl eq_refl)).
  exists "`tt B-2 xx next`". split.
  - vm_compute. right. left. reflexivity.
  - reflexivity.
Defined.

(* ================================================================= *)
(** ** Writing annotations and preset tasks, and reading them back *)

Section ReadingBack.

Import RegExp.

Lemma split_char_unfold (c : ascii) (s : string) :
  JS.split (String c "") s = JS.split_from (String c "") 0 s.
Proof. reflexivity. Qed.

Lemma split_char_single (c : ascii) (p : string) :
  occurs c p = false -> JS.split (String c "") p = [p].
Proof.
  rewrite split_char_unfold.
  induction p as [|x p IH]; intros H; simpl in H; [reflexivity|].
  apply orb_false_iff in H. destruct H as [Hx Hp].
  cbn [JS.split_from]. rewrite startsWith_char, Hx.
  now rewrite (IH Hp).
Qed.

Lemma split_char_append (c : ascii) (p t : string) :
  occurs c p = false ->
  JS.split (String c "") (p ++ String c t)
  = p :: JS.split (String c "") t.
Proof.
  rewrite !split_char_unfold.
  induction p as [|x p IH]; intros H; simpl in H.
  - cbn [append JS.split_from]. rewrite startsWith_char.
    now rewrite Ascii.eqb_refl.
  - apply orb_false_iff in H. destruct H as [Hx Hp].
    cbn [append JS.split_from]. rewrite startsWith_char, Hx.
    now rewrite (IH Hp).
Qed.

Lemma split_join_lines (lines : list string) :
  lines <> [] ->
  Forall (fun l => occurs JS.LF l = false) lines ->
  JS.split JS.newline (JS.join JS.newline lines) = lines.
Proof.
  intros Hne Hlf. induction Hlf as [|l lines Hl Hrest IH]; [congruence|].
  destruct lines as [|l' lines].
  - now apply split_char_single.
  - change (JS.join JS.newline (l :: l' :: lines))
      with (l ++ String JS.LF (JS.join JS.newline (l' :: lines))).
    change JS.newline with (String JS.LF "").
    rewrite split_char_append by exact Hl.
    f_equal. apply IH. discriminate.
Qed.

Lemma startsWith_other (a x : ascii) (sep s : string) :
  Ascii.eqb x a = false ->
  JS.startsWith (String a sep) (String x s) = false.
Proof.
  intros H. unfold JS.startsWith. cbn [String.prefix].
  destruct (ascii_dec a x) as [<-|]; [|reflexivity].
  now rewrite Ascii.eqb_refl in H.
Qed.

(** A line without underscore in the fields has exactly these fields. *)
Lemma split_fields_single (n : string) :
  occurs "_" n = false -> JS.split_from "___" 0 n = [n].
Proof.
  induction n as [|x n IH]; intros H; simpl in H; [reflexivity|].
  apply orb_false_iff in H. destruct H as [Hx Hn].
  cbn [JS.split_from]. rewrite (@startsWith_other "_" x "__" n Hx).
  now rewrite (IH Hn).
Qed.

Lemma split_fields (i n : string) :
  occurs "_" i = false -> occurs "_" n = false ->
  JS.split "___" (i ++ "___" ++ n) = [i; n].
Proof.
  intros Hi Hn. unfold JS.split.
  induction i as [|x i IH]; simpl in Hi.
  - change ("" ++ "___" ++ n) with (String "_" ("__" ++ n)).
    cbn [JS.split_from].
    change (String "_" ("__" ++ n)) with ("___" ++ n).
    rewrite startsWith_append.
    cbn [append JS.split_from String.length Nat.sub].
    now rewrite split_fields_single.
  - apply orb_false_iff in Hi. destruct Hi as [Hx Hi].
    change (String x i ++ "___" ++ n) with (String x (i ++ "___" ++ n)).
    cbn [JS.split_from].
    rewrite (@startsWith_other "_" x "__" (i ++ "___" ++ n) Hx).
    now rewrite (IH Hi).
Qed.

(** On a marker, a body on one line and a closing backtick, the default
    pattern matches the whole. *)
Lemma greedy_whole (body : string) :
  occurs JS.LF body = false -> occurs JS.CR body = false ->
  repeat_greedy AnyCharacter (body ++ "`") closing = Some "".
Proof.
  induction body as [|x body IH]; intros H1 H2; simpl in H1, H2.
  - reflexivity.
  - apply orb_false_iff in H1, H2.
    destruct H1 as [Hx1 H1], H2 as [Hx2 H2].
    cbn [append repeat_greedy atom_matches]. unfold isLineTerminator.
    rewrite Hx1, Hx2. cbn [orb negb]. now rewrite IH.
Qed.

Lemma default_matches_annotation (body : string) :
  occurs JS.LF body = false -> occurs JS.CR body = false ->
  collection defaultRegExp ("`tt " ++ body ++ "`")
  = ["`tt " ++ body ++ "`"].
Proof.
  intros H1 H2. rewrite collection_matched. unfold matchAll.
  set (s := "`tt " ++ body ++ "`").
  assert (Hm : match_at defaultRegExp s = Some "").
  { unfold s, match_at, defaultRegExp.
    cbn [match_disjunction match_alternative match_term quantifier atom].
    change (fun s' : string =>
              match_atom (PatternCharacter "`") s' (fun rest0 => Some rest0))
      with closing.
    cbn [append match_atom atom_matches]. rewrite !Ascii.eqb_refl.
    now rewrite greedy_whole. }
  assert (Hs : s = String "`" ("tt " ++ body ++ "`")) by reflexivity.
  rewrite Hs at 1. cbn [scan]. rewrite <- Hs, Hm.
  cbn [String.length]. rewrite Nat.sub_0_r.
  replace (String.substring 0 (String.length s) s) with s.
  2:{ rewrite <- (append_empty_r s) at 3. now rewrite substring_0_append. }
  cbn [map matched]. f_equal.
  rewrite scan_skip by (rewrite Hs; simpl; lia).
  replace (drop (String.length s - 1) ("tt " ++ body ++ "`")) with "".
  - cbn [scan]. reflexivity.
  - rewrite Hs. cbn [String.length]. rewrite Nat.sub_succ, Nat.sub_0_r.
    rewrite <- (append_empty_r ("tt " ++ body ++ "`")) at 2.
    now rewrite drop_append.
Qed.

Lemma numeral_no (c : ascii) (d : Decimal.uint) :
  (forall x, In x (list_ascii_of_string "0123456789") -> Ascii.eqb x c = false) ->
  occurs c (DecimalString.NilEmpty.string_of_uint d) = false.
Proof.
  intros H.
  induction d; cbn [DecimalString.NilEmpty.string_of_uint occurs];
    [reflexivity | ..];
    rewrite IHd, orb_false_r; apply H; simpl; tauto.
Qed.

Lemma decimal_no (c : ascii) (z : Z) :
  (Z.abs z < 2 ^ 53)%Z ->
  (forall x, In x (list_ascii_of_string "-0123456789") ->
             Ascii.eqb x c = false) ->
  occurs c (decimal z) = false.
Proof.
  intros Habs H.
  assert (Hd : forall d, occurs c (DecimalString.NilEmpty.string_of_uint d)
                         = false).
  { intros d. apply numeral_no. intros x Hx. apply H. now right. }
  assert (H0 : Ascii.eqb "0" c = false) by (apply H; simpl; tauto).
  assert (Hminus : Ascii.eqb "-" c = false) by (apply H; simpl; tauto).
  unfold decimal, number_toString.
  rewrite (proj2 (Z.ltb_lt _ _) Habs). clear Habs. unfold Z.to_int.
  destruct z as [|p|p];
    cbn [DecimalString.NilZero.string_of_int];
    unfold DecimalString.NilZero.string_of_uint.
  - cbn [DecimalString.NilEmpty.string_of_uint occurs]. now rewrite H0.
  - destruct (Pos.to_uint p) eqn:E;
      try (rewrite <- E; apply Hd).
    cbn [occurs]. now rewrite H0.
  - cbn [occurs]. rewrite Hminus. cbn [orb].
    destruct (Pos.to_uint p) eqn:E;
      try (rewrite <- E; apply Hd).
    cbn [occurs]. now rewrite H0.
Qed.

End ReadingBack.

(** X13. Preset tasks written to the settings one per line as
    [id___name] are read back as they are, in their order, provided that no
    id and no name holds an underscore or a line feed. *)
Theorem preset_tasks_read_back :
  forall (s : MyPluginSettings) (tasks : list Preset.PresetTask),
    Forall (fun t =>
              occurs "_" (Preset.id t) = false
              /\ occurs "_" (Preset.name t) = false
              /\ occurs JS.LF (Preset.id t) = false
              /\ occurs JS.LF (Preset.name t) = false)
           tasks ->
    getPresetTasks
      {| settings :=
           onPresetTasksChange (JS.join JS.newline (map presetLine tasks)) s |}
    = tasks.
Proof.
  intros s tasks Hclean. unfold getPresetTasks.
  cbn [settings onPresetTasksChange presetTasks].
  destruct tasks as [|t0 tasks0] eqn:Et; [reflexivity|].
  rewrite <- Et in *. rewrite split_join_lines.
  - clear Et. induction Hclean as [|t tasks (H1 & H2 & _) _ IH];
      [reflexivity|].
    cbn [map filter_defined]. unfold presetTaskOfLine at 1, presetLine at 1.
    rewrite (split_fields _ _ H1 H2). rewrite IH. now destruct t.
  - rewrite Et. discriminate.
  - apply Forall_forall. intros l Hl. apply in_map_iff in Hl.
    destruct Hl as (t & <- & Ht). rewrite Forall_forall in Hclean.
    destruct (Hclean t Ht) as (_ & _ & H3 & H4).
    unfold presetLine. rewrite !occurs_append, H3, H4. reflexivity.
Qed.

Lemma preset_tasks_read_back_witness :
  getPresetTasks
    {| settings :=
         onPresetTasksChange
           (JS.join JS.newline
                    (map presetLine
                         [ {| Preset.id := "A-1"; Preset.name := "Alpha" |};
                           {| Preset.id := "B-2"; Preset.name := "Beta" |} ]))
           DEFAULT_SETTINGS |}
  = [ {| Preset.id := "A-1"; Preset.name := "Alpha" |};
      {| Preset.id := "B-2"; Preset.name := "Beta" |} ].
Proof.
  apply preset_tasks_read_back.
  repeat constructor.
Defined.

(** X14. With the default pattern, the annotation written for an id, a
    number of minutes and a description is read back as the record of
    exactly these, and its template line is [id__minutes_description]; the
    id holds no space and neither the id nor the description a line
    terminator. *)
Theorem written_annotation_reads_back :
  forall (i d : string) (z : Z),
    occurs " " i = false ->
    occurs JS.LF i = false -> occurs JS.CR i = false ->
    occurs JS.LF d = false -> occurs JS.CR d = false ->
    safeInteger (Num z) ->
    getTimeTrackerTemplateInfo defaultPlugin (annotation i z d)
    = Some [ {| id := Some i; time := Num z; text := d |} ]
    /\ option_map getTimeTrackerTemplate
                  (getTimeTrackerTemplateInfo defaultPlugin (annotation i z d))
       = Some (i ++ "__" ++ decimal z ++ "_" ++ d).
Proof.
  intros i d z Hsp Hi1 Hi2 Hd1 Hd2 Hsafe.
  assert (Habs : (Z.abs z < 2 ^ 53)%Z) by (cbn [safeInteger] in Hsafe; lia).
  set (body := i ++ " " ++ decimal z ++ " " ++ d).
  assert (Ha : annotation i z d = "`tt " ++ body ++ "`").
  { unfold annotation, body.
    repeat first [rewrite append_assoc | progress cbn [append]].
    reflexivity. }
  assert (Hz : forall c,
             (forall x, In x (list_ascii_of_string "-0123456789") ->
                        Ascii.eqb x c = false) ->
             occurs c (decimal z) = false)
    by (intros c; now apply decimal_no).
  assert (Hb1 : occurs JS.LF body = false).
  { unfold body. rewrite !occurs_append, Hi1, Hd1, Hz; [reflexivity|].
    intros x Hx. simpl in Hx. intuition (subst; reflexivity). }
  assert (Hb2 : occurs JS.CR body = false).
  { unfold body. rewrite !occurs_append, Hi2, Hd2, Hz; [reflexivity|].
    intros x Hx. simpl in Hx. intuition (subst; reflexivity). }
  assert (Hzs : occurs " " (decimal z) = false).
  { apply Hz. intros x Hx. simpl in Hx. intuition (subst; reflexivity). }
  assert (Hsplit : JS.split " " (annotation i z d)
                   = "`tt" :: i :: decimal z :: JS.split " " (d ++ "`")).
  { rewrite Ha, split_marker. unfold body.
    replace ((i ++ " " ++ decimal z ++ " " ++ d) ++ "`")
      with (i ++ String " " (decimal z ++ String " " (d ++ "`")))
      by (repeat first [rewrite append_assoc | progress cbn [append]];
          reflexivity).
    rewrite (@split_char_append " " i _ Hsp).
    now rewrite (@split_char_append " " (decimal z) _ Hzs). }
  assert (Hrest : JS.split " " (d ++ "`") <> []).
  { unfold JS.split. apply split_from_nonempty. }
  assert (Hinfo : infoOfMatch (annotation i z d)
                  = {| id := Some i; time := Num z; text := d |}).
  { destruct (tokens_give_back _ Hsplit Hrest) as [_ Htext].
    rewrite join_split in Htext by discriminate.
    rewrite substring_strip_last in Htext.
    pose proof (infoOfMatch_time (annotation i z d)) as Htime.
    rewrite Hsplit in Htime. cbn [JS.get nth_error] in Htime.
    unfold decimal in Htime.
    rewrite (parseInt_number_toString _ Hsafe) in Htime.
    assert (Hid : id (infoOfMatch (annotation i z d)) = Some i)
      by (unfold infoOfMatch; cbn [id]; now rewrite Hsplit).
    destruct (infoOfMatch (annotation i z d)) as [i' t' x'].
    cbn [id time text] in *. now subst. }
  assert (Hall : getTimeTrackerTemplateInfo defaultPlugin (annotation i z d)
                 = Some [ {| id := Some i; time := Num z; text := d |} ]).
  { rewrite (getTimeTrackerTemplateInfo_created _ _ create_default).
    rewrite Ha at 1. rewrite (@default_matches_annotation body Hb1 Hb2).
    rewrite <- Ha. cbn [map]. now rewrite Hinfo. }
  split; [exact Hall|]. rewrite Hall. reflexivity.
Qed.

Lemma written_annotation_reads_back_witness :
  getTimeTrackerTemplateInfo defaultPlugin (annotation "ABC-1" 30 "did work")
  = Some [ {| id := Some "ABC-1"; time := Num 30; text := "did work" |} ]
  /\ option_map getTimeTrackerTemplate
                (getTimeTrackerTemplateInfo
                   defaultPlugin (annotation "ABC-1" 30 "did work"))
     = Some ("ABC-1" ++ "__" ++ decimal 30 ++ "_" ++ "did work").
Proof.
  apply written_annotation_reads_back; try reflexivity.
  simpl. lia.
Defined.
